(** * ARISS article generator: a shallow embedding of
      [ariss-article-generator.py] and the properties of its parser and
      renderer.

    Text is modelled as [string] (a sequence of bytes, UTF-8 for the
    accented characters of the templates).  The character classes used
    by [str.strip], [str.lower] and the pattern [\d] are the ASCII ones;
    console output ([print]) is not part of the model.  Library calls
    whose tables live outside the program ([dateutil.parser.parse], the
    zone conversion to Europe/Paris, the locale-dependent long date
    format) are variables of the sections that use them. *)

From Stdlib Require Import String Ascii List ZArith Bool Lia Arith.
Import ListNotations.

Open Scope string_scope.
Open Scope list_scope.

(** ** Python exceptions and fallible results *)

Inductive exn : Type :=
| IndexError
| ValueError
| OverflowError
| AttributeError.

Inductive result (A : Type) : Type :=
| Ok (a : A)
| Raise (e : exn).

Arguments Ok {A} a.
Arguments Raise {A} e.

Definition bind {A B : Type} (r : result A) (k : A -> result B) : result B :=
  match r with
  | Ok a => k a
  | Raise e => Raise e
  end.

Notation "x <- r ;; k" := (bind r (fun x => k))
  (at level 61, r at next level, right associativity).

(** ** Python string primitives *)

Module PyStr.

(** [s.startswith(p)] *)
Fixpoint startswith (p s : string) : bool :=
  match p with
  | EmptyString => true
  | String a p' =>
      match s with
      | EmptyString => false
      | String b s' => Ascii.eqb a b && startswith p' s'
      end
  end.

(** [needle in s] *)
Fixpoint contains (needle s : string) : bool :=
  startswith needle s ||
  match s with
  | EmptyString => false
  | String _ s' => contains needle s'
  end.

(** [s.split(sep)] for a non-empty separator: the pieces between the
    leftmost non-overlapping occurrences of [sep].  [skip] counts the
    characters of a matched separator that are still to be passed. *)
Fixpoint split_go (sep : string) (skip : nat) (s : string) : list string :=
  match s with
  | EmptyString => [EmptyString]
  | String c s' =>
      match skip with
      | S k => split_go sep k s'
      | O =>
          if startswith sep s
          then EmptyString :: split_go sep (String.length sep - 1) s'
          else match split_go sep 0 s' with
               | p :: ps => String c p :: ps
               | [] => [String c EmptyString]
               end
      end
  end.

Definition split (sep s : string) : list string := split_go sep 0 s.

(** [sep.join(parts)] *)
Fixpoint join (sep : string) (parts : list string) : string :=
  match parts with
  | [] => EmptyString
  | [p] => p
  | p :: ps => p ++ sep ++ join sep ps
  end.

(** [c.isspace()] on the ASCII range: tab, line feed, vertical tab, form
    feed, carriage return, the separators 28..31 and the space. *)
Definition isspace (c : ascii) : bool :=
  let n := nat_of_ascii c in
  ((9 <=? n)%nat && (n <=? 13)%nat) || ((28 <=? n)%nat && (n <=? 32)%nat).

Fixpoint lstrip (s : string) : string :=
  match s with
  | EmptyString => EmptyString
  | String c s' => if isspace c then lstrip s' else s
  end.

Fixpoint rstrip (s : string) : string :=
  match s with
  | EmptyString => EmptyString
  | String c s' =>
      match rstrip s' with
      | EmptyString => if isspace c then EmptyString else String c EmptyString
      | r => String c r
      end
  end.

(** [s.strip()] *)
Definition strip (s : string) : string := rstrip (lstrip s).

Definition lower_char (c : ascii) : ascii :=
  let n := nat_of_ascii c in
  if (65 <=? n)%nat && (n <=? 90)%nat then ascii_of_nat (n + 32) else c.

(** [s.lower()] *)
Fixpoint lower (s : string) : string :=
  match s with
  | EmptyString => EmptyString
  | String c s' => String (lower_char c) (lower s')
  end.

(** Truth value of a string: non-empty. *)
Definition truthy (s : string) : bool :=
  match s with
  | EmptyString => false
  | String _ _ => true
  end.

Definition isdigit (c : ascii) : bool :=
  let n := nat_of_ascii c in (48 <=? n)%nat && (n <=? 57)%nat.

Fixpoint skip_digits (s : string) : string :=
  match s with
  | EmptyString => EmptyString
  | String c s' => if isdigit c then skip_digits s' else s
  end.

(** [re.match(r'^\d+\.', s)] as a truth value. *)
Definition match_digits_dot (s : string) : bool :=
  match s with
  | EmptyString => false
  | String c s' =>
      isdigit c &&
      match skip_digits s' with
      | String d _ => Ascii.eqb d "."
      | EmptyString => false
      end
  end.

(** [l[i]] *)
Definition getitem {A : Type} (l : list A) (i : nat) : result A :=
  match nth_error l i with
  | Some x => Ok x
  | None => Raise IndexError
  end.

(** [l[-1]] *)
Definition getlast {A : Type} (l : list A) : result A :=
  match rev l with
  | x :: _ => Ok x
  | [] => Raise IndexError
  end.

End PyStr.

Import PyStr.


(** The line feed, separator of [split('\n')]. *)
Definition LF : string := String "010"%char EmptyString.

Fixpoint replicate (n : nat) (c : ascii) : string :=
  match n with
  | O => EmptyString
  | S k => String c (replicate k c)
  end.

(** ** Data model *)

Inductive tz : Type :=
| UTC
| EuropeParis.

(** A [datetime] value; [tzinfo = None] is a naive one. *)
Record datetime : Type := mk_datetime {
  year : Z;
  month : Z;
  day : Z;
  hour : Z;
  minute : Z;
  second : Z;
  tzinfo : option tz
}.

(** [class ArissContact] *)
Record ArissContact : Type := mk_contact {
  school : string;
  location : string;
  callsign : string;
  frequency : string;
  astronaut : string;
  astronaut_callsign : string;
  date_time : option datetime;
  questions : list string;
  livestream : string;
  elevation : string;
  contact_type : string;
  mentor : string
}.

(** [ArissContact.__init__] *)
Definition new_contact : ArissContact :=
  mk_contact "" "" "" "" "" "" None [] "" "" "" "".

Definition set_school (v : string) (c : ArissContact) : ArissContact :=
  mk_contact v (location c) (callsign c) (frequency c) (astronaut c)
    (astronaut_callsign c) (date_time c) (questions c) (livestream c)
    (elevation c) (contact_type c) (mentor c).

Definition set_location (v : string) (c : ArissContact) : ArissContact :=
  mk_contact (school c) v (callsign c) (frequency c) (astronaut c)
    (astronaut_callsign c) (date_time c) (questions c) (livestream c)
    (elevation c) (contact_type c) (mentor c).

Definition set_callsign (v : string) (c : ArissContact) : ArissContact :=
  mk_contact (school c) (location c) v (frequency c) (astronaut c)
    (astronaut_callsign c) (date_time c) (questions c) (livestream c)
    (elevation c) (contact_type c) (mentor c).

Definition set_frequency (v : string) (c : ArissContact) : ArissContact :=
  mk_contact (school c) (location c) (callsign c) v (astronaut c)
    (astronaut_callsign c) (date_time c) (questions c) (livestream c)
    (elevation c) (contact_type c) (mentor c).

Definition set_astronaut (v : string) (c : ArissContact) : ArissContact :=
  mk_contact (school c) (location c) (callsign c) (frequency c) v
    (astronaut_callsign c) (date_time c) (questions c) (livestream c)
    (elevation c) (contact_type c) (mentor c).

Definition set_astronaut_callsign (v : string) (c : ArissContact)
  : ArissContact :=
  mk_contact (school c) (location c) (callsign c) (frequency c) (astronaut c)
    v (date_time c) (questions c) (livestream c)
    (elevation c) (contact_type c) (mentor c).

Definition set_date_time (v : option datetime) (c : ArissContact)
  : ArissContact :=
  mk_contact (school c) (location c) (callsign c) (frequency c) (astronaut c)
    (astronaut_callsign c) v (questions c) (livestream c)
    (elevation c) (contact_type c) (mentor c).

Definition set_questions (v : list string) (c : ArissContact) : ArissContact :=
  mk_contact (school c) (location c) (callsign c) (frequency c) (astronaut c)
    (astronaut_callsign c) (date_time c) v (livestream c)
    (elevation c) (contact_type c) (mentor c).

Definition set_livestream (v : string) (c : ArissContact) : ArissContact :=
  mk_contact (school c) (location c) (callsign c) (frequency c) (astronaut c)
    (astronaut_callsign c) (date_time c) (questions c) v
    (elevation c) (contact_type c) (mentor c).

Definition set_elevation (v : string) (c : ArissContact) : ArissContact :=
  mk_contact (school c) (location c) (callsign c) (frequency c) (astronaut c)
    (astronaut_callsign c) (date_time c) (questions c) (livestream c)
    v (contact_type c) (mentor c).

Definition set_contact_type (v : string) (c : ArissContact) : ArissContact :=
  mk_contact (school c) (location c) (callsign c) (frequency c) (astronaut c)
    (astronaut_callsign c) (date_time c) (questions c) (livestream c)
    (elevation c) v (mentor c).

Definition set_mentor (v : string) (c : ArissContact) : ArissContact :=
  mk_contact (school c) (location c) (callsign c) (frequency c) (astronaut c)
    (astronaut_callsign c) (date_time c) (questions c) (livestream c)
    (elevation c) (contact_type c) v.

(** ** The section splitter *)

(** The pattern of [re.split]: seventy [=] characters. *)
Definition DELIMITER : string := replicate 70 "=".

(** [re.split] on a pattern that is a literal text cuts at its leftmost
    non-overlapping occurrences, as [str.split] does. *)
Definition re_split (pattern text : string) : list string :=
  split pattern text.

(** The condition of [if not section.strip(): continue], negated. *)
Definition kept (section : string) : bool := truthy (strip section).

(** The sections that [parse_contacts] goes on to read. *)
Definition contact_sections (text : string) : list string :=
  filter kept (re_split DELIMITER text).

(** ** The question pass (second loop of [parse_contacts]) *)

Definition question_step (st : bool * list string) (line : string)
  : bool * list string :=
  let '(questions_started, qs) := st in
  if contains "Proposed questions" line then (true, qs)
  else if questions_started && truthy (strip line)
            && negb (startswith "===" line)
       then if match_digits_dot (strip line)
            then (questions_started, qs ++ [strip line])
            else st
       else st.

Definition extract_questions (lines : list string) : list string :=
  snd (fold_left question_step lines (false, [])).

(** ** The contact parser (first loop of [parse_contacts]) *)

Section Parser.

(** [dateutil.parser.parse]: the date read from a text, or the exception
    it raises ([ValueError] for a text it cannot read). *)
Variable parser_parse : string -> result datetime.

Definition trigger_school (line : string) : bool :=
  contains "direct via" (lower line) || contains "telebridge via" (lower line).

Definition trigger_frequency (line : string) : bool :=
  contains "frequency" (lower line).

Definition trigger_crew (line : string) : bool :=
  contains "scheduled crewmember is" (lower line).

Definition trigger_go_for (line : string) : bool :=
  contains "Contact is go for:" line.

Definition trigger_livestream (line : string) : bool :=
  contains "Watch for the Livestream at" line.

Definition trigger_mentor (line : string) : bool :=
  contains "The ARISS mentor is" line.

Definition rule_school (line : string) (contact : ArissContact)
  : result ArissContact :=
  let school_info := split "," line in
  s0 <- getitem school_info 0 ;;
  let contact := set_school (strip s0) contact in
  if (1 <? List.length school_info)%nat then
    s1 <- getitem school_info 1 ;;
    let contact := set_location (strip s1) contact in
    s2 <- getitem school_info 2 ;;
    let contact_type_info := split " via " (strip s2) in
    t0 <- getitem contact_type_info 0 ;;
    let contact := set_contact_type (strip t0) contact in
    if (1 <? List.length contact_type_info)%nat then
      t1 <- getitem contact_type_info 1 ;;
      Ok (set_callsign (strip t1) contact)
    else Ok contact
  else Ok contact.

Definition rule_frequency (line : string) (contact : ArissContact)
  : result ArissContact :=
  f <- getitem (split "be" line) 1 ;;
  Ok (set_frequency (strip f) contact).

Definition rule_crew (line : string) (contact : ArissContact)
  : result ArissContact :=
  ci <- getitem (split "is" line) 1 ;;
  let crew_info := strip ci in
  if contains " " crew_info then
    let name_parts := split " " crew_info in
    if (1 <? List.length name_parts)%nat then
      let contact := set_astronaut (join " " (removelast name_parts)) contact in
      cs <- getlast name_parts ;;
      Ok (set_astronaut_callsign cs contact)
    else
      Ok (set_astronaut_callsign "" (set_astronaut crew_info contact))
  else Ok (set_astronaut crew_info contact).

(** The body of the [try] block, then [except ValueError]: the contact is
    left as it was, since the only statements that raise [ValueError] come
    before the first assignment. *)
Definition rule_go_for (line : string) (contact : ArissContact)
  : result ArissContact :=
  let body :=
    a <- getitem (split "Contact is go for:" line) 1 ;;
    b <- getitem (split "UTC" a) 0 ;;
    let date_time_str := strip b in
    parsed_dt <- parser_parse date_time_str ;;
    let contact :=
      set_date_time
        (Some (mk_datetime (year parsed_dt) (month parsed_dt) (day parsed_dt)
                 (hour parsed_dt) (minute parsed_dt) (second parsed_dt)
                 (Some UTC))) contact in
    e <- getitem (split "UTC" line) 1 ;;
    let elevation_str := strip e in
    if truthy elevation_str
    then Ok (set_elevation elevation_str contact)
    else Ok contact in
  match body with
  | Raise ValueError => Ok contact
  | r => r
  end.

Definition rule_livestream (line : string) (contact : ArissContact)
  : result ArissContact :=
  v <- getitem (split "at" line) 1 ;;
  Ok (set_livestream (strip v) contact).

Definition rule_mentor (line : string) (contact : ArissContact)
  : result ArissContact :=
  v <- getitem (split "is" line) 1 ;;
  Ok (set_mentor (strip v) contact).

(** The [if]/[elif] chain run on one line. *)
Definition parse_line (contact : ArissContact) (line : string)
  : result ArissContact :=
  if trigger_school line then rule_school line contact
  else if trigger_frequency line then rule_frequency line contact
  else if trigger_crew line then rule_crew line contact
  else if trigger_go_for line then rule_go_for line contact
  else if trigger_livestream line then rule_livestream line contact
  else if trigger_mentor line then rule_mentor line contact
  else Ok contact.

(** [for line in lines: ...]; an exception leaves the loop. *)
Fixpoint parse_lines (contact : ArissContact) (lines : list string)
  : result ArissContact :=
  match lines with
  | [] => Ok contact
  | line :: rest =>
      contact' <- parse_line contact line ;;
      parse_lines contact' rest
  end.

(** One block: both loops over its lines. *)
Definition parse_block (lines : list string) : result ArissContact :=
  contact <- parse_lines new_contact lines ;;
  Ok (set_questions (extract_questions lines) contact).

(** [for section in contact_sections: ...], with the contacts collected
    so far. *)
Fixpoint parse_sections (sections : list string)
  (contacts : list ArissContact) : result (list ArissContact) :=
  match sections with
  | [] => Ok contacts
  | section :: rest =>
      if negb (truthy (strip section)) then parse_sections rest contacts
      else
        contact <- parse_block (split LF (strip section)) ;;
        parse_sections rest
          (if truthy (school contact) then contacts ++ [contact]
           else contacts)
  end.

(** [ArissArticleGenerator.parse_contacts], from [self.raw_text] to
    [self.contacts]. *)
Definition parse_contacts (raw_text : string) : result (list ArissContact) :=
  parse_sections (re_split DELIMITER raw_text) [].

End Parser.


(** ** The article renderer *)

Record Article : Type := mk_article {
  title : string;
  content : string;
  category : string;
  status : string
}.

Definition digit (n : Z) : ascii := ascii_of_nat (48 + Z.to_nat (n mod 10)).

(** Two digits, zero padded: [%d], [%m], [%H], [%M]. *)
Definition pad2 (n : Z) : string :=
  String (digit (n / 10)) (String (digit n) EmptyString).

(** Four digits, zero padded: [%Y]. *)
Definition pad4 (n : Z) : string :=
  String (digit (n / 1000)) (String (digit (n / 100)) (pad2 n)).

(** [strftime("%d/%m/%Y")] *)
Definition strftime_dmY (d : datetime) : string :=
  pad2 (day d) ++ "/" ++ pad2 (month d) ++ "/" ++ pad4 (year d).

(** [strftime("%H:%M")] *)
Definition strftime_HM (d : datetime) : string :=
  pad2 (hour d) ++ ":" ++ pad2 (minute d).

Section Renderer.

(** [dt.astimezone(ZoneInfo('Europe/Paris'))], from the zone database.
    It is taken as a total function: the [OverflowError] that the library
    raises when the Paris time would pass the end of year 9999 has no
    counterpart here. *)
Variable astimezone_paris : datetime -> datetime.

(** [strftime('%A %d %B %Y')], whose day and month names come from the
    locale set in [__init__]. *)
Variable strftime_A_d_B_Y : datetime -> string.

(** The paragraph added under [if contact.livestream:]. *)
Definition livestream_paragraph (contact : ArissContact) : string :=
  LF ++ "Un livestream sera disponible sur : " ++ livestream contact ++ LF.

(** The first value of [content]: the three sentences of the template. *)
Definition content_intro (contact : ArissContact) (dt paris_time : datetime)
  : string :=
  "Un contact radioamateur est prévu le "
  ++ lower (strftime_A_d_B_Y paris_time)
  ++ " vers " ++ strftime_HM dt ++ " UTC ("
  ++ strftime_HM paris_time ++ " heure de Paris)." ++ LF
  ++ LF
  ++ "Il aura lieu entre l'astronaute " ++ astronaut contact
  ++ " (" ++ astronaut_callsign contact ++ ") et " ++ school contact
  ++ " en " ++ location contact ++ "." ++ LF
  ++ LF
  ++ "Le contact sera sur " ++ frequency contact
  ++ " (+/-3 KHz de doppler) en FM étroite. Il sera "
  ++ contact_type contact ++ " par la station " ++ callsign contact
  ++ " et donc audible depuis la France." ++ LF.

Definition MORE_HEADING : string :=
  LF ++ "<!-- more -->" ++ LF ++ LF ++ "Questions prévues :" ++ LF ++ LF.

Definition CLOSING : string :=
  LF ++ "L'équipe ARISS se tient à votre disposition pour tout support relatif à l'écoute de ce contact."
  ++ LF ++ LF ++ "73 et bonne écoute".

(** [for question in contact.questions: content += f"{question}\n"] *)
Definition add_questions (content : string) (qs : list string) : string :=
  fold_left (fun content question => (content ++ question ++ LF)%string)
    qs content.

(** [ArissArticleGenerator.generate_wordpress_article] *)
Definition generate_wordpress_article (contact : ArissContact)
  : result Article :=
  match date_time contact with
  | None => Raise AttributeError
  | Some dt =>
      let paris_time := astimezone_paris dt in
      let date_fr := strftime_dmY paris_time in
      let title :=
        ("Contact radioamateur du " ++ date_fr ++ " – "
         ++ callsign contact)%string in
      let content := content_intro contact dt paris_time in
      let content :=
        if truthy (livestream contact)
        then (content ++ livestream_paragraph contact)%string
        else content in
      let content := (content ++ MORE_HEADING)%string in
      let content := add_questions content (questions contact) in
      let content := (content ++ CLOSING)%string in
      Ok (mk_article title content "Contact ARISS" "draft")
  end.

(** ** The loop of [main] over the parsed contacts *)

Definition date (d : datetime) : Z * Z * Z := (year d, month d, day d).

Definition date_eqb (a b : Z * Z * Z) : bool :=
  let '(y1, m1, d1) := a in
  let '(y2, m2, d2) := b in
  (y1 =? y2)%Z && (m1 =? m2)%Z && (d1 =? d2)%Z.

(** The test [contact_date.date() != target_date.date()] that skips a
    contact, under [if target_date:]. *)
Definition skipped_by_filter (target_date : option datetime) (dt : datetime)
  : bool :=
  match target_date with
  | Some target =>
      let contact_date :=
        mk_datetime (year dt) (month dt) (day dt) 0 0 0 None in
      negb (date_eqb (date contact_date) (date target))
  | None => false
  end.

(** [for contact in generator.contacts: ...]: the count of contacts
    processed and the articles printed, in order. *)
Fixpoint main_loop (target_date : option datetime)
  (contacts : list ArissContact) (contact_count : nat)
  (printed : list Article) : result (nat * list Article) :=
  match contacts with
  | [] => Ok (contact_count, printed)
  | contact :: rest =>
      match date_time contact with
      | Some dt =>
          if skipped_by_filter target_date dt
          then main_loop target_date rest contact_count printed
          else
            article <- generate_wordpress_article contact ;;
            main_loop target_date rest (S contact_count)
              (printed ++ [article])
      | None => main_loop target_date rest contact_count printed
      end
  end.

End Renderer.

(** ** Instances of the library calls, for concrete runs *)

Module Calendar.

Open Scope Z_scope.

(** Days since 1970-01-01 of a proleptic Gregorian date. *)
Definition days_from_civil (y m d : Z) : Z :=
  let y' := if m <=? 2 then y - 1 else y in
  let era := y' / 400 in
  let yoe := y' - era * 400 in
  let mp := (m + 9) mod 12 in
  let doy := (153 * mp + 2) / 5 + d - 1 in
  let doe := yoe * 365 + yoe / 4 - yoe / 100 + doy in
  era * 146097 + doe - 719468.

Definition civil_from_days (z : Z) : Z * Z * Z :=
  let z := z + 719468 in
  let era := z / 146097 in
  let doe := z - era * 146097 in
  let yoe := (doe - doe / 1460 + doe / 36524 - doe / 146096) / 365 in
  let doy := doe - (365 * yoe + yoe / 4 - yoe / 100) in
  let mp := (5 * doy + 2) / 153 in
  let d := doy - (153 * mp + 2) / 5 + 1 in
  let m := if mp <? 10 then mp + 3 else mp - 9 in
  let y := yoe + era * 400 in
  (if m <=? 2 then y + 1 else y, m, d).

(** Day of the week of a day number, 0 for Sunday. *)
Definition weekday (days : Z) : Z := (days + 4) mod 7.

(** The last Sunday of a month of 31 days, as a day number. *)
Definition last_sunday (y m : Z) : Z :=
  let last := days_from_civil y m 31 in
  last - weekday last.

Definition minutes_of (d : datetime) : Z :=
  (days_from_civil (year d) (month d) (day d) * 24 + hour d) * 60 + minute d.

(** Modelled from the zone database: the rule of Europe/Paris in force
    since 1996, one hour ahead of UTC, two between 01:00 UTC of the last
    Sunday of March and 01:00 UTC of the last Sunday of October. *)
Definition paris_offset_minutes (d : datetime) : Z :=
  let t := minutes_of d in
  let dst_start := (last_sunday (year d) 3 * 24 + 1) * 60 in
  let dst_end := (last_sunday (year d) 10 * 24 + 1) * 60 in
  if (dst_start <=? t) && (t <? dst_end) then 120 else 60.

Definition astimezone_paris (d : datetime) : datetime :=
  let t := minutes_of d + paris_offset_minutes d in
  let days := t / (24 * 60) in
  let '(y, m, dd) := civil_from_days days in
  mk_datetime y m dd ((t / 60) mod 24) (t mod 60) (second d)
    (Some EuropeParis).

End Calendar.

Module SampleParser.

Definition digit_value (c : ascii) : option Z :=
  if isdigit c then Some (Z.of_nat (nat_of_ascii c) - 48)%Z else None.

Fixpoint number_go (acc : Z) (s : string) : option Z :=
  match s with
  | EmptyString => Some acc
  | String c s' =>
      match digit_value c with
      | Some v => number_go (acc * 10 + v)%Z s'
      | None => None
      end
  end.

Definition number (s : string) : option Z :=
  match s with
  | EmptyString => None
  | _ => number_go 0%Z s
  end.

Definition month_names : list (string * Z) :=
  [("january", 1); ("february", 2); ("march", 3); ("april", 4); ("may", 5);
   ("june", 6); ("july", 7); ("august", 8); ("september", 9);
   ("october", 10); ("november", 11); ("december", 12)]%Z.

Fixpoint lookup (k : string) (l : list (string * Z)) : option Z :=
  match l with
  | [] => None
  | (k', v) :: l' => if String.eqb k k' then Some v else lookup k l'
  end.

(** A day that exists in the calendar. *)
Definition is_date (y m d : Z) : bool :=
  let '(y', m', d') :=
    Calendar.civil_from_days (Calendar.days_from_civil y m d) in
  ((y' =? y) && (m' =? m) && (d' =? d))%Z.

(** A reader of the one layout "day month-name year hour:minute", which
    [dateutil.parser.parse] accepts among many others; any other text is
    refused with [ValueError]. *)
Definition parse (s : string) : result datetime :=
  match split " " s with
  | [d; m; y; t] =>
      match number d, lookup (lower m) month_names, number y,
            map number (split ":" t) with
      | Some d, Some m, Some y, [Some h; Some mi] =>
          if ((1 <=? y) && (y <=? 9999) && (h <=? 23) && (mi <=? 59))%Z
             && is_date y m d
          then Ok (mk_datetime y m d h mi 0 None)
          else Raise ValueError
      | _, _, _, _ => Raise ValueError
      end
  | _ => Raise ValueError
  end.

End SampleParser.

(** A long date in the C locale, for concrete runs. *)
Definition sample_strftime_A_d_B_Y (d : datetime) : string :=
  "day " ++ pad2 (day d) ++ " month " ++ pad2 (month d) ++ " " ++ pad4 (year d).

(** ** Notions used to state the properties *)

(** [s[n:]] *)
Fixpoint drop (n : nat) (s : string) : string :=
  match n, s with
  | O, _ => s
  | S k, EmptyString => EmptyString
  | S k, String _ s' => drop k s'
  end.

(** A line made of one or more [=] characters and nothing else. *)
Fixpoint all_equals (s : string) : bool :=
  match s with
  | EmptyString => true
  | String c s' => Ascii.eqb c "=" && all_equals s'
  end.

Definition is_equals_line (line : string) : bool :=
  truthy line && all_equals line.

(** The lines that follow the first line containing "Proposed questions". *)
Fixpoint after_heading (lines : list string) : list string :=
  match lines with
  | [] => []
  | line :: rest =>
      if contains "Proposed questions" line then rest else after_heading rest
  end.

(** A question line as the specification words it: not blank, not
    starting with [===], and, once trimmed, digits followed by a period. *)
Definition numbered_line (line : string) : bool :=
  truthy (strip line) && negb (startswith "===" line)
  && match_digits_dot (strip line).

(** A question line as the loop takes it: a numbered line that does not
    itself contain "Proposed questions". *)
Definition question_line (line : string) : bool :=
  negb (contains "Proposed questions" line) && numbered_line line.

(** The six rules of the [if]/[elif] chain, in its order. *)
Inductive rule : Type :=
| RSchool
| RFrequency
| RCrew
| RGoFor
| RLivestream
| RMentor.

Definition trigger (r : rule) : string -> bool :=
  match r with
  | RSchool => trigger_school
  | RFrequency => trigger_frequency
  | RCrew => trigger_crew
  | RGoFor => trigger_go_for
  | RLivestream => trigger_livestream
  | RMentor => trigger_mentor
  end.

Definition rules : list rule :=
  [RSchool; RFrequency; RCrew; RGoFor; RLivestream; RMentor].

(** The first rule of the table whose trigger matches the line. *)
Definition rule_of (line : string) : option rule :=
  find (fun r => trigger r line) rules.

(** The scalar fields of a contact. *)
Inductive field : Type :=
| FSchool
| FLocation
| FCallsign
| FFrequency
| FAstronaut
| FAstronautCallsign
| FDateTime
| FLivestream
| FElevation
| FContactType
| FMentor.

Inductive value : Type :=
| VText (s : string)
| VInstant (d : option datetime).

Definition get (f : field) (c : ArissContact) : value :=
  match f with
  | FSchool => VText (school c)
  | FLocation => VText (location c)
  | FCallsign => VText (callsign c)
  | FFrequency => VText (frequency c)
  | FAstronaut => VText (astronaut c)
  | FAstronautCallsign => VText (astronaut_callsign c)
  | FDateTime => VInstant (date_time c)
  | FLivestream => VText (livestream c)
  | FElevation => VText (elevation c)
  | FContactType => VText (contact_type c)
  | FMentor => VText (mentor c)
  end.

(** The rule whose body assigns the field. *)
Definition owner (f : field) : rule :=
  match f with
  | FSchool | FLocation | FCallsign | FContactType => RSchool
  | FFrequency => RFrequency
  | FAstronaut | FAstronautCallsign => RCrew
  | FDateTime | FElevation => RGoFor
  | FLivestream => RLivestream
  | FMentor => RMentor
  end.


Section Dispatch.

Variable parser_parse : string -> result datetime.

Definition run_rule (r : rule) : string -> ArissContact -> result ArissContact :=
  match r with
  | RSchool => rule_school
  | RFrequency => rule_frequency
  | RCrew => rule_crew
  | RGoFor => rule_go_for parser_parse
  | RLivestream => rule_livestream
  | RMentor => rule_mentor
  end.

(** A line keeps a field when reading it never changes the field. *)
Definition keeps (f : field) (line : string) : Prop :=
  forall c c', parse_line parser_parse c line = Ok c' -> get f c' = get f c.


End Dispatch.

(** A contact that the loop of [main] renders, in the words of the
    specification: it has a scheduled instant and, under a date filter,
    the calendar date of that instant is the filter's. *)
Definition rendered (target_date : option datetime) (c : ArissContact)
  : bool :=
  match date_time c with
  | None => false
  | Some dt =>
      match target_date with
      | None => true
      | Some target =>
          ((year dt =? year target) && (month dt =? month target)
           && (day dt =? day target))%Z
      end
  end.

(** The lines of questions that the renderer writes. *)
Fixpoint question_lines (qs : list string) : string :=
  match qs with
  | [] => EmptyString
  | q :: rest => q ++ LF ++ question_lines rest
  end.

(** What follows the optional paragraph in [content]. *)
Definition content_tail (c : ArissContact) : string :=
  MORE_HEADING ++ question_lines (questions c) ++ CLOSING.

(** The line of the specification's example. *)
Definition GO_LINE : string :=
  "Contact is go for: 25 March 2024 18:30 UTC, max elevation 45 degrees".

Definition GO_INSTANT : datetime := mk_datetime 2024 3 25 18 30 0 (Some UTC).

(** ** The run of [main] on a newsletter text *)

Section MainRun.

Variable parser_parse : string -> result datetime.
Variable astimezone_paris : datetime -> datetime.
Variable strftime_A_d_B_Y : datetime -> string.

(** [generator = ArissArticleGenerator(text)] followed by the loop over
    [generator.contacts]: the count and the articles printed, or the
    exception that [main] catches with [except Exception] before it
    leaves with status 1. *)
Definition main_articles (target_date : option datetime) (text : string)
  : result (nat * list Article) :=
  contacts <- parse_contacts parser_parse text ;;
  main_loop astimezone_paris strftime_A_d_B_Y target_date contacts 0 [].

End MainRun.

(** ** Further notions used to state properties *)

(** [s[:-1]] *)
Fixpoint init (s : string) : string :=
  match s with
  | EmptyString => EmptyString
  | String c s' =>
      match s' with
      | EmptyString => EmptyString
      | String _ _ => String c (init s')
      end
  end.

(** The instant stored by the go-for rule for a date read as [parsed]. *)
Definition utc_instant (parsed : datetime) : datetime :=
  mk_datetime (year parsed) (month parsed) (day parsed)
    (hour parsed) (minute parsed) (second parsed) (Some UTC).

(** The lines of a section, as [parse_contacts] reads them. *)
Definition section_lines (section : string) : list string :=
  split LF (strip section).

(** The text that the go-for rule hands to the date reader:
    [line.split('Contact is go for:')[1].split('UTC')[0].strip()]. *)
Definition date_time_str (line : string) : result string :=
  a <- getitem (split "Contact is go for:" line) 1 ;;
  b <- getitem (split "UTC" a) 0 ;;
  Ok (strip b).

(** * Properties *)

(** ** Facts about the string primitives *)

Section StringFacts.

Lemma append_nil_r (s : string) : (s ++ "")%string = s.
Proof. induction s as [|c s IH]; simpl; [reflexivity | now rewrite IH]. Qed.

Lemma append_assoc (a b c : string) :
  ((a ++ b) ++ c)%string = (a ++ b ++ c)%string.
Proof. induction a as [|x a IH]; simpl; [reflexivity | now rewrite IH]. Qed.

Lemma length_append (a b : string) :
  String.length (a ++ b) = String.length a + String.length b.
Proof. induction a as [|x a IH]; simpl; [reflexivity | now rewrite IH]. Qed.

Lemma startswith_append (p r : string) : startswith p (p ++ r) = true.
Proof.
  induction p as [|a p IH]; simpl; [reflexivity|].
  now rewrite Ascii.eqb_refl, IH.
Qed.

Lemma startswith_append_r (p s r : string) :
  startswith p s = true -> startswith p (s ++ r) = true.
Proof.
  revert s; induction p as [|a p IH]; intros s H; simpl; [reflexivity|].
  destruct s as [|b s]; simpl in *; [discriminate|].
  apply andb_true_iff in H as [Hab Hp].
  now rewrite Hab, (IH _ Hp).
Qed.

Lemma startswith_drop (p s : string) :
  startswith p s = true -> s = (p ++ drop (String.length p) s)%string.
Proof.
  revert s; induction p as [|a p IH]; intros s H; simpl.
  - reflexivity.
  - destruct s as [|b s]; simpl in *; [discriminate|].
    apply andb_true_iff in H as [Hab Hp].
    apply Ascii.eqb_eq in Hab; subst b.
    now rewrite <- (IH _ Hp).
Qed.

Lemma contains_startswith (needle s : string) :
  startswith needle s = true -> contains needle s = true.
Proof. intros H. destruct s; simpl; now rewrite H. Qed.

Lemma contains_append (needle a b : string) :
  contains needle (a ++ needle ++ b) = true.
Proof.
  induction a as [|c a IH]; simpl.
  - apply contains_startswith, startswith_append.
  - rewrite IH. apply orb_true_r.
Qed.

Lemma split_go_nonempty (sep : string) (s : string) (k : nat) :
  split_go sep k s <> [].
Proof.
  revert k; induction s as [|c s IH]; intros k; simpl; [discriminate|].
  destruct k as [|k]; [|apply IH].
  destruct (startswith sep (String c s)); [discriminate|].
  destruct (split_go sep 0 s); discriminate.
Qed.

Lemma join_cons_char (sep : string) (c : ascii) (p : string)
  (ps : list string) :
  join sep (String c p :: ps) = String c (join sep (p :: ps)).
Proof. destruct ps; reflexivity. Qed.

Lemma join_split_go (sep : string) :
  sep <> "" ->
  forall s k, join sep (split_go sep k s) = drop k s.
Proof.
  intros Hsep s; induction s as [|c s IH]; intros k.
  - destruct k; reflexivity.
  - destruct k as [|k]; simpl; [|apply IH].
    destruct (startswith sep (String c s)) eqn:Hpre.
    + pose proof (IH (String.length sep - 1)) as IHk.
      destruct (split_go sep (String.length sep - 1) s) as [|q qs] eqn:E.
      * now apply split_go_nonempty in E.
      * change (join sep ("" :: q :: qs))
          with (sep ++ join sep (q :: qs))%string.
        rewrite IHk.
        destruct sep as [|a sep']; [congruence|].
        simpl in Hpre. apply andb_true_iff in Hpre as [Hac Hp].
        apply Ascii.eqb_eq in Hac; subst a.
        simpl. rewrite Nat.sub_0_r.
        now rewrite <- (startswith_drop _ _ Hp).
    + pose proof (IH 0) as IH0. simpl in IH0.
      destruct (split_go sep 0 s) as [|q qs] eqn:E.
      * now apply split_go_nonempty in E.
      * rewrite join_cons_char, IH0. now destruct s.
Qed.

(** Joining the pieces of a split with the separator gives the text
    back. *)
Lemma join_split (sep s : string) :
  sep <> "" -> join sep (split sep s) = s.
Proof. intros H. unfold split. now rewrite join_split_go. Qed.

Lemma split_go_head_prefix (sep : string) (s p : string)
  (ps : list string) :
  sep <> "" -> split_go sep 0 s = p :: ps -> exists r, s = (p ++ r)%string.
Proof.
  intros Hsep E.
  pose proof (join_split_go sep Hsep s 0) as J. rewrite E in J. simpl in J.
  destruct ps as [|q qs].
  - exists ""%string. now rewrite append_nil_r.
  - eexists. symmetry. exact J.
Qed.

(** No piece of a split contains the separator. *)
Lemma split_go_no_sep (sep : string) :
  sep <> "" ->
  forall s k p, In p (split_go sep k s) -> contains sep p = false.
Proof.
  intros Hsep s; induction s as [|c s IH]; intros k p Hin.
  - simpl in Hin. destruct Hin as [<-|[]].
    destruct sep; [congruence | reflexivity].
  - destruct k as [|k]; simpl in Hin; [|now apply (IH k)].
    destruct (startswith sep (String c s)) eqn:Hpre.
    + destruct Hin as [<-|Hin]; [|now apply (IH _ _ Hin)].
      destruct sep; [congruence | reflexivity].
    + destruct (split_go sep 0 s) as [|q qs] eqn:E.
      * now apply split_go_nonempty in E.
      * destruct Hin as [<-|Hin].
        -- assert (Hq : contains sep q = false)
             by (apply (IH 0); rewrite E; now left).
           destruct (split_go_head_prefix sep s q qs Hsep E) as [r Hr].
           change (contains sep (String c q))
             with (startswith sep (String c q) || contains sep q).
           rewrite Hq, orb_false_r.
           destruct (startswith sep (String c q)) eqn:Hcq; [|reflexivity].
           apply (startswith_append_r _ _ r) in Hcq.
           simpl in Hcq. rewrite <- Hr in Hcq. congruence.
        -- apply (IH 0). rewrite E. now right.
Qed.

End StringFacts.

(** ** The section splitter *)

Lemma DELIMITER_nonempty : DELIMITER <> "".
Proof. discriminate. Qed.

Lemma kept_iff (section : string) : kept section = true <-> strip section <> "".
Proof.
  unfold kept. destruct (strip section); simpl; split; congruence.
Qed.

(** C3, as stated, would have no block keep a line made only of [=]; a
    line of three [=] stays inside its block. *)
Lemma C3_counterexample :
  ~ (forall text block line,
        In block (contact_sections text) ->
        In line (split LF block) ->
        is_equals_line line = false).
Proof.
  intros H.
  specialize (H ("A" ++ LF ++ "===" ++ LF ++ "B")%string
                ("A" ++ LF ++ "===" ++ LF ++ "B")%string "==="%string).
  assert (E : is_equals_line "===" = true) by reflexivity.
  rewrite H in E; [discriminate| |].
  - vm_compute. now left.
  - vm_compute. right. now left.
Qed.

(** ** The question pass *)

Lemma question_step_true (qs : list string) (line : string) :
  question_step (true, qs) line
  = (true, if question_line line then qs ++ [strip line] else qs).
Proof.
  unfold question_step, question_line, numbered_line.
  destruct (contains "Proposed questions" line),
    (truthy (strip line)), (startswith "===" line),
    (match_digits_dot (strip line)); reflexivity.
Qed.

Lemma question_step_false (qs : list string) (line : string) :
  question_step (false, qs) line
  = (contains "Proposed questions" line, qs).
Proof.
  unfold question_step.
  now destruct (contains "Proposed questions" line).
Qed.

Lemma question_step_started (lines qs : list string) :
  fold_left question_step lines (true, qs)
  = (true, qs ++ map strip (filter question_line lines)).
Proof.
  revert qs; induction lines as [|line rest IH]; intros qs.
  - cbn [fold_left filter map]. now rewrite app_nil_r.
  - cbn [fold_left filter]. rewrite question_step_true, IH.
    destruct (question_line line); [|reflexivity].
    cbn [map]. now rewrite <- app_assoc.
Qed.

Lemma question_step_waiting (lines qs : list string) :
  snd (fold_left question_step lines (false, qs))
  = qs ++ map strip (filter question_line (after_heading lines)).
Proof.
  revert qs; induction lines as [|line rest IH]; intros qs.
  - cbn. now rewrite app_nil_r.
  - cbn [fold_left after_heading]. rewrite question_step_false.
    destruct (contains "Proposed questions" line).
    + now rewrite question_step_started.
    + apply IH.
Qed.

Lemma extract_questions_after_heading (lines : list string) :
  extract_questions lines
  = map strip (filter question_line (after_heading lines)).
Proof. unfold extract_questions. now rewrite question_step_waiting. Qed.

Lemma parse_block_questions (parser_parse : string -> result datetime)
  (lines : list string) (c : ArissContact) :
  parse_block parser_parse lines = Ok c ->
  questions c = extract_questions lines.
Proof.
  unfold parse_block, bind.
  destruct (parse_lines parser_parse new_contact lines); [|discriminate].
  intros H; injection H as <-. reflexivity.
Qed.

(** C9, as stated, takes every numbered line after the heading; a
    numbered line that itself contains "Proposed questions" is passed
    over. *)
Lemma C9_counterexample :
  exists c,
    parse_block SampleParser.parse
      ["Proposed questions"; "1. Are the Proposed questions hard?";
       "2. How do you sleep?"] = Ok c /\
    questions c = ["2. How do you sleep?"] /\
    map strip (filter numbered_line
      (after_heading
         ["Proposed questions"; "1. Are the Proposed questions hard?";
          "2. How do you sleep?"]))
    = ["1. Are the Proposed questions hard?"; "2. How do you sleep?"] /\
    questions c
    <> map strip (filter numbered_line
         (after_heading
            ["Proposed questions"; "1. Are the Proposed questions hard?";
             "2. How do you sleep?"])).
Proof.
  eexists. split; [vm_compute; reflexivity|].
  split; [reflexivity|]. split; [vm_compute; reflexivity|].
  vm_compute. discriminate.
Qed.

(** C9 (amended): the questions of a block are the lines after the first
    line containing "Proposed questions" that do not themselves contain
    "Proposed questions", are not blank, do not start with [===] and,
    once trimmed, start with digits followed by a period; each is kept
    trimmed, in the order of the block. *)
Theorem C9_questions_after_heading
  (parser_parse : string -> result datetime) (lines : list string) :
  extract_questions lines
  = map strip (filter question_line (after_heading lines)) /\
  (forall c, parse_block parser_parse lines = Ok c ->
             questions c
             = map strip (filter question_line (after_heading lines))).
Proof.
  split.
  - apply extract_questions_after_heading.
  - intros c H. rewrite (parse_block_questions _ _ _ H).
    apply extract_questions_after_heading.
Qed.

Lemma C9_questions_after_heading_witness :
  questions
    (set_questions
       ["1. What is it like in space?"; "2. How do you sleep?"] new_contact)
  = map strip (filter question_line
      (after_heading
         ["Proposed questions"; "1. What is it like in space?";
          "2. How do you sleep?"])).
Proof.
  apply (proj2 (C9_questions_after_heading SampleParser.parse
           ["Proposed questions"; "1. What is it like in space?";
            "2. How do you sleep?"])).
  vm_compute. reflexivity.
Defined.

(** ** The rules of the contact parser *)

Ltac simpl_fields :=
  cbn [get school location callsign frequency astronaut astronaut_callsign
       date_time questions livestream elevation contact_type mentor
       set_school set_location set_callsign set_frequency set_astronaut
       set_astronaut_callsign set_date_time set_questions set_livestream
       set_elevation set_contact_type set_mentor] in *.

(** Case analysis on every test of a rule body found in a hypothesis,
    innermost test first. *)
Ltac break_rule H :=
  cbv beta iota zeta in H;
  repeat match type of H with
    | context [match ?x with _ => _ end] =>
        lazymatch x with
        | context [match _ with _ => _ end] => fail
        | _ => destruct x eqn:?; cbv beta iota zeta in H;
               try discriminate H
        end
    end.


Ltac unfold_rules :=
  unfold rule_school, rule_frequency, rule_crew, rule_go_for,
    rule_livestream, rule_mentor, bind in *.

Section RuleFacts.

Variable parser_parse : string -> result datetime.

Lemma parse_line_dispatch (c : ArissContact) (l : string) :
  parse_line parser_parse c l
  = match rule_of l with
    | Some r => run_rule parser_parse r l c
    | None => Ok c
    end.
Proof.
  unfold parse_line, rule_of, rules. cbn [find trigger].
  destruct (trigger_school l), (trigger_frequency l), (trigger_crew l),
    (trigger_go_for l), (trigger_livestream l), (trigger_mentor l);
    reflexivity.
Qed.

Lemma run_rule_frame (r : rule) (l : string) (c c' : ArissContact)
  (f : field) :
  run_rule parser_parse r l c = Ok c' -> owner f <> r ->
  get f c' = get f c.
Proof.
  intros H Hne.
  destruct r; cbn [run_rule] in H; unfold_rules; break_rule H;
    injection H as <-;
    destruct f; simpl_fields; try reflexivity;
    exfalso; apply Hne; reflexivity.
Qed.

Lemma parse_line_frame (c c' : ArissContact) (l : string) (f : field) :
  parse_line parser_parse c l = Ok c' -> rule_of l <> Some (owner f) ->
  get f c' = get f c.
Proof.
  rewrite parse_line_dispatch. intros H Hne.
  destruct (rule_of l) as [r|].
  - apply (run_rule_frame r l c c' f H). congruence.
  - now injection H as <-.
Qed.

Lemma parse_line_questions (c c' : ArissContact) (l : string) :
  parse_line parser_parse c l = Ok c' -> questions c' = questions c.
Proof.
  rewrite parse_line_dispatch. intros H.
  destruct (rule_of l) as [r|]; [|now injection H as <-].
  destruct r; cbn [run_rule] in H; unfold_rules; break_rule H;
    injection H as <-; reflexivity.
Qed.

End RuleFacts.

Section BlockFacts.

Variable parser_parse : string -> result datetime.

Lemma rule_eq_dec (a b : rule) : {a = b} + {a <> b}.
Proof. decide equality. Qed.





Lemma parse_lines_app (c : ArissContact) (a b : list string) :
  parse_lines parser_parse c (a ++ b)
  = (c1 <- parse_lines parser_parse c a ;; parse_lines parser_parse c1 b).
Proof.
  revert c; induction a as [|l a IH]; intros c; cbn [app parse_lines].
  - reflexivity.
  - unfold bind at 1 3. destruct (parse_line parser_parse c l); [|reflexivity].
    apply IH.
Qed.

Lemma parse_lines_keeps (f : field) (post : list string)
  (c cf : ArissContact) :
  (forall l, In l post -> keeps parser_parse f l) ->
  parse_lines parser_parse c post = Ok cf -> get f cf = get f c.
Proof.
  revert c; induction post as [|l post IH]; intros c K H;
    cbn [parse_lines] in H.
  - now injection H as <-.
  - unfold bind in H.
    destruct (parse_line parser_parse c l) as [c1|] eqn:E; [|discriminate].
    rewrite (IH c1); [|intros; apply K; now right|exact H].
    apply (K l); [now left | exact E].
Qed.

(** The value of a field at the end of a block is the one given by the
    last line that does not keep it. *)
Lemma last_assignment_stays (f : field) (pre post : list string)
  (l : string) (c0 cf : ArissContact) (v : value) :
  parse_lines parser_parse c0 (pre ++ l :: post) = Ok cf ->
  (forall c c', parse_line parser_parse c l = Ok c' -> get f c' = v) ->
  (forall l', In l' post -> keeps parser_parse f l') ->
  get f cf = v.
Proof.
  rewrite parse_lines_app. unfold bind. intros H A K.
  destruct (parse_lines parser_parse c0 pre) as [c1|]; [|discriminate].
  cbn [parse_lines] in H. unfold bind in H.
  destruct (parse_line parser_parse c1 l) as [c2|] eqn:E; [|discriminate].
  rewrite (parse_lines_keeps f post c2 cf K H).
  apply (A c1 c2 E).
Qed.

Lemma other_rule_keeps (f : field) (l : string) :
  rule_of l <> Some (owner f) -> keeps parser_parse f l.
Proof.
  intros Hne c c' H. now apply (parse_line_frame parser_parse c c' l f).
Qed.

End BlockFacts.

(** ** First matching rule, last assignment *)




(** ** The go-for line of the specification's example *)

Lemma rule_of_GO_LINE : rule_of GO_LINE = Some RGoFor.
Proof. vm_compute. reflexivity. Qed.

Lemma parse_line_GO_LINE (parser_parse : string -> result datetime)
  (c : ArissContact) :
  parser_parse "25 March 2024 18:30" = Ok (mk_datetime 2024 3 25 18 30 0 None) ->
  parse_line parser_parse c GO_LINE
  = Ok (set_elevation ", max elevation 45 degrees"
          (set_date_time (Some GO_INSTANT) c)).
Proof.
  intros Hparse.
  rewrite parse_line_dispatch, rule_of_GO_LINE. cbn [run_rule].
  unfold rule_go_for, bind.
  replace (getitem (split "Contact is go for:" GO_LINE) 1)
    with (Ok " 25 March 2024 18:30 UTC, max elevation 45 degrees"%string)
    by (vm_compute; reflexivity).
  replace (getitem
             (split "UTC" " 25 March 2024 18:30 UTC, max elevation 45 degrees")
             0)
    with (Ok " 25 March 2024 18:30 "%string) by (vm_compute; reflexivity).
  replace (strip " 25 March 2024 18:30 ") with "25 March 2024 18:30"%string
    by (vm_compute; reflexivity).
  rewrite Hparse.
  replace (getitem (split "UTC" GO_LINE) 1)
    with (Ok ", max elevation 45 degrees"%string)
    by (vm_compute; reflexivity).
  replace (strip ", max elevation 45 degrees")
    with ", max elevation 45 degrees"%string by (vm_compute; reflexivity).
  reflexivity.
Qed.

(** C1, as stated, has the elevation without the comma that follows the
    UTC token; the text after the token keeps it. *)
Lemma C1_counterexample :
  exists c,
    parse_block SampleParser.parse [GO_LINE] = Ok c /\
    date_time c = Some GO_INSTANT /\
    elevation c = ", max elevation 45 degrees"%string /\
    elevation c <> "max elevation 45 degrees"%string.
Proof.
  eexists. split; [vm_compute; reflexivity|].
  split; [reflexivity|]. split; [reflexivity|]. discriminate.
Qed.

(** C1 (amended): given that the date reader turns "25 March 2024 18:30"
    into 2024-03-25 18:30:00, the parser reading the line "Contact is go
    for: 25 March 2024 18:30 UTC, max elevation 45 degrees" stores the
    instant 2024-03-25T18:30:00 with the UTC zone attached and the same
    clock fields, and sets the elevation to the trimmed text after the
    UTC token, ", max elevation 45 degrees", comma included.  These are
    the values of the block's contact when no later line of the block
    fires the go-for rule. *)
Theorem C1_go_line_instant_and_elevation
  (parser_parse : string -> result datetime) :
  parser_parse "25 March 2024 18:30" = Ok (mk_datetime 2024 3 25 18 30 0 None) ->
  (forall c,
      parse_line parser_parse c GO_LINE
      = Ok (set_elevation ", max elevation 45 degrees"
              (set_date_time (Some GO_INSTANT) c))) /\
  (forall pre post c,
      parse_block parser_parse (pre ++ GO_LINE :: post) = Ok c ->
      (forall l, In l post -> rule_of l <> Some RGoFor) ->
      date_time c = Some GO_INSTANT /\
      elevation c = ", max elevation 45 degrees"%string).
Proof.
  intros Hparse. split.
  - intros c. now apply parse_line_GO_LINE.
  - intros pre post c Hblock Hpost.
    unfold parse_block, bind in Hblock.
    destruct (parse_lines parser_parse new_contact (pre ++ GO_LINE :: post))
      as [c1|] eqn:E; [|discriminate].
    injection Hblock as <-. simpl_fields.
    assert (D : get FDateTime c1 = VInstant (Some GO_INSTANT)).
    { apply (last_assignment_stays parser_parse FDateTime pre post GO_LINE
               new_contact c1 _ E).
      - intros c c'. rewrite (parse_line_GO_LINE _ _ Hparse).
        intros H; injection H as <-. reflexivity.
      - intros l Hin. apply other_rule_keeps, Hpost, Hin. }
    assert (V : get FElevation c1 = VText ", max elevation 45 degrees").
    { apply (last_assignment_stays parser_parse FElevation pre post GO_LINE
               new_contact c1 _ E).
      - intros c c'. rewrite (parse_line_GO_LINE _ _ Hparse).
        intros H; injection H as <-. reflexivity.
      - intros l Hin. apply other_rule_keeps, Hpost, Hin. }
    cbn [get] in D, V. split; congruence.
Qed.

Lemma C1_go_line_instant_and_elevation_witness :
  parse_line SampleParser.parse new_contact GO_LINE
  = Ok (set_elevation ", max elevation 45 degrees"
          (set_date_time (Some GO_INSTANT) new_contact)).
Proof.
  apply (proj1 (C1_go_line_instant_and_elevation SampleParser.parse
                  ltac:(vm_compute; reflexivity))).
Defined.

(** ** Lines on which a rule fails *)

(** C2 (the code against it): a school line with exactly two
    comma-separated parts, and a frequency line without "be", make
    [parse_contacts] raise [IndexError] instead of leaving the field
    unset. *)
Theorem C2_short_lines_raise (parser_parse : string -> result datetime) :
  parse_contacts parser_parse "Lycee Jules Verne, France direct via F1ABC"
  = Raise IndexError /\
  parse_contacts parser_parse "Downlink frequency: 145.800 MHz"
  = Raise IndexError /\
  parse_contacts parser_parse "Lycee Jules Verne direct via F1ABC"
  = Ok [set_school "Lycee Jules Verne direct via F1ABC" new_contact].
Proof. repeat split; vm_compute; reflexivity. Qed.

(** C5 (the code against it): the crew information is cut at the second
    occurrence of "is", so a name that contains "is" is truncated and the
    callsign is lost; a name without "is" is read whole. *)
Theorem C5_crew_name_cut_at_second_is
  (parser_parse : string -> result datetime) (c : ArissContact) :
  parse_line parser_parse c
    "The scheduled crewmember is Chris Hadfield KC5RNJ"
  = Ok (set_astronaut "Chr" c) /\
  parse_line parser_parse c
    "The scheduled crewmember is Jeanette Epps KF5QNU"
  = Ok (set_astronaut_callsign "KF5QNU" (set_astronaut "Jeanette Epps" c)).
Proof. split; vm_compute; reflexivity. Qed.

(** ** Contacts without a school *)

Lemma trigger_school_rule_of (l : string) :
  trigger_school l = false -> rule_of l <> Some RSchool.
Proof.
  intros H. unfold rule_of, rules. cbn [find trigger]. rewrite H.
  destruct (trigger_frequency l), (trigger_crew l), (trigger_go_for l),
    (trigger_livestream l), (trigger_mentor l); discriminate.
Qed.

Lemma truthy_iff (s : string) : truthy s = true <-> s <> ""%string.
Proof. destruct s; simpl; split; congruence. Qed.

Section SchoolFacts.

Variable parser_parse : string -> result datetime.

Lemma parse_block_no_school (lines : list string) (c : ArissContact) :
  parse_block parser_parse lines = Ok c ->
  (forall l, In l lines -> trigger_school l = false) ->
  school c = ""%string.
Proof.
  unfold parse_block, bind. intros H Hno.
  destruct (parse_lines parser_parse new_contact lines) as [c1|] eqn:E;
    [|discriminate].
  injection H as <-. simpl_fields.
  assert (K : get FSchool c1 = get FSchool new_contact).
  { apply (parse_lines_keeps parser_parse FSchool lines new_contact c1);
      [|exact E].
    intros l Hin. apply other_rule_keeps. cbn [owner].
    apply trigger_school_rule_of, Hno, Hin. }
  cbn [get] in K. now injection K.
Qed.

Lemma parse_sections_skip (section : string) (rest : list string)
  (contacts : list ArissContact) (c : ArissContact) :
  parse_block parser_parse (split LF (strip section)) = Ok c ->
  school c = ""%string ->
  parse_sections parser_parse (section :: rest) contacts
  = parse_sections parser_parse rest contacts.
Proof.
  intros Hb Hs. cbn [parse_sections].
  destruct (negb (truthy (strip section))); [reflexivity|].
  rewrite Hb. unfold bind. now rewrite Hs.
Qed.

Lemma parse_sections_schools (sections : list string) :
  forall contacts result,
    Forall (fun c => school c <> ""%string) contacts ->
    parse_sections parser_parse sections contacts = Ok result ->
    Forall (fun c => school c <> ""%string) result.
Proof.
  induction sections as [|section rest IH]; intros contacts result Hall H;
    cbn [parse_sections] in H.
  - now injection H as <-.
  - destruct (negb (truthy (strip section))); [now apply (IH contacts)|].
    unfold bind in H.
    destruct (parse_block parser_parse (split LF (strip section)))
      as [c|]; [|discriminate].
    destruct (truthy (school c)) eqn:T.
    + apply (IH (contacts ++ [c])); [|exact H].
      apply Forall_app. split; [exact Hall|].
      constructor; [now apply truthy_iff | constructor].
    + now apply (IH contacts).
Qed.

Lemma parse_contacts_schools (text : string) (contacts : list ArissContact) :
  parse_contacts parser_parse text = Ok contacts ->
  Forall (fun c => school c <> ""%string) contacts.
Proof.
  unfold parse_contacts. apply parse_sections_schools. constructor.
Qed.

End SchoolFacts.

(** ** The renderer and the loop of [main] *)

Section RendererFacts.

Variable astimezone_paris : datetime -> datetime.
Variable strftime_A_d_B_Y : datetime -> string.

Lemma add_questions_lines (qs : list string) (content : string) :
  add_questions content qs = (content ++ question_lines qs)%string.
Proof.
  unfold add_questions.
  revert content; induction qs as [|q qs IH]; intros content;
    cbn [fold_left question_lines].
  - now rewrite append_nil_r.
  - rewrite IH. now rewrite !append_assoc.
Qed.

(** What [generate_wordpress_article] returns for a contact that has a
    scheduled instant. *)
Lemma generate_with_instant (c : ArissContact) (dt : datetime) :
  date_time c = Some dt ->
  generate_wordpress_article astimezone_paris strftime_A_d_B_Y c
  = Ok (mk_article
          ("Contact radioamateur du " ++ strftime_dmY (astimezone_paris dt)
           ++ " – " ++ callsign c)
          (content_intro strftime_A_d_B_Y c dt (astimezone_paris dt)
           ++ (if truthy (livestream c) then livestream_paragraph c else "")
           ++ content_tail c)
          "Contact ARISS" "draft").
Proof.
  intros E. unfold generate_wordpress_article. rewrite E.
  cbv zeta. f_equal. f_equal.
  rewrite add_questions_lines. unfold content_tail.
  destruct (truthy (livestream c)); cbn [append];
    now rewrite !append_assoc.
Qed.

Lemma rendered_not_skipped (target : option datetime) (c : ArissContact)
  (dt : datetime) :
  date_time c = Some dt ->
  rendered target c = negb (skipped_by_filter target dt).
Proof.
  intros E. unfold rendered, skipped_by_filter. rewrite E.
  destruct target as [t|]; [|reflexivity].
  cbn [date date_eqb year month day]. now rewrite negb_involutive.
Qed.

Lemma main_loop_filter (target : option datetime)
  (contacts : list ArissContact) :
  forall n printed,
  exists arts,
    main_loop astimezone_paris strftime_A_d_B_Y target contacts n printed
    = Ok (n + List.length (filter (rendered target) contacts),
          printed ++ arts) /\
    Forall2
      (fun c a =>
         generate_wordpress_article astimezone_paris strftime_A_d_B_Y c
         = Ok a)
      (filter (rendered target) contacts) arts.
Proof.
  induction contacts as [|c rest IH]; intros n printed;
    cbn [main_loop filter].
  - exists []. rewrite app_nil_r, Nat.add_0_r. split; [reflexivity|].
    constructor.
  - destruct (date_time c) as [dt|] eqn:E.
    + rewrite (rendered_not_skipped target c dt E).
      destruct (skipped_by_filter target dt); cbn [negb].
      * apply IH.
      * rewrite (generate_with_instant c dt E). unfold bind.
        destruct (IH (S n) (printed ++ [mk_article
          ("Contact radioamateur du " ++ strftime_dmY (astimezone_paris dt)
           ++ " – " ++ callsign c)
          (content_intro strftime_A_d_B_Y c dt (astimezone_paris dt)
           ++ (if truthy (livestream c) then livestream_paragraph c else "")
           ++ content_tail c)
          "Contact ARISS" "draft"])) as [arts [Hrun Hall]].
        eexists (_ :: arts). split.
        -- rewrite Hrun. cbn [List.length]. rewrite <- app_assoc.
           cbn [app]. f_equal. f_equal. lia.
        -- constructor; [|exact Hall].
           apply (generate_with_instant c dt E).
    + replace (rendered target c) with false
        by (unfold rendered; now rewrite E).
      apply IH.
Qed.

Lemma Forall2_In_right {A B : Type} (R : A -> B -> Prop) (l : list A)
  (l' : list B) (b : B) :
  Forall2 R l l' -> In b l' -> exists a, In a l /\ R a b.
Proof.
  induction 1 as [|x y l l' Hxy _ IH]; intros Hin; [destruct Hin|].
  destruct Hin as [<-|Hin].
  - exists x. split; [now left | exact Hxy].
  - destruct (IH Hin) as [a [Ha Hab]]. exists a. split; [now right|exact Hab].
Qed.

End RendererFacts.

(** ** Which contacts become articles *)

(** C4: a block none of whose lines contains "direct via" or "telebridge
    via" gives a contact with an empty school, which is not added to the
    contact list; every listed contact has a school; a listed contact
    without a scheduled instant is passed over by the loop of [main]; and
    every article printed comes from a listed contact that has both a
    school and a scheduled instant. *)
Theorem C4_article_needs_school_and_instant
  (parser_parse : string -> result datetime)
  (astimezone_paris : datetime -> datetime)
  (strftime_A_d_B_Y : datetime -> string) :
  (forall lines c,
      parse_block parser_parse lines = Ok c ->
      (forall l, In l lines -> trigger_school l = false) ->
      school c = ""%string) /\
  (forall section rest contacts c,
      parse_block parser_parse (split LF (strip section)) = Ok c ->
      school c = ""%string ->
      parse_sections parser_parse (section :: rest) contacts
      = parse_sections parser_parse rest contacts) /\
  (forall text contacts,
      parse_contacts parser_parse text = Ok contacts ->
      forall c, In c contacts -> school c <> ""%string) /\
  (forall target c rest n printed,
      date_time c = None ->
      main_loop astimezone_paris strftime_A_d_B_Y target (c :: rest) n printed
      = main_loop astimezone_paris strftime_A_d_B_Y target rest n printed) /\
  (forall text target contacts n arts,
      parse_contacts parser_parse text = Ok contacts ->
      main_loop astimezone_paris strftime_A_d_B_Y target contacts 0 []
      = Ok (n, arts) ->
      forall a, In a arts ->
      exists c dt,
        In c contacts /\ school c <> ""%string /\ date_time c = Some dt /\
        generate_wordpress_article astimezone_paris strftime_A_d_B_Y c
        = Ok a).
Proof.
  split; [apply parse_block_no_school|].
  split; [apply parse_sections_skip|].
  split.
  { intros text contacts H. apply Forall_forall.
    apply (parse_contacts_schools parser_parse text contacts H). }
  split.
  { intros target c rest n printed E. cbn [main_loop]. now rewrite E. }
  intros text target contacts n arts Hparse Hloop a Hin.
  destruct (main_loop_filter astimezone_paris strftime_A_d_B_Y target
              contacts 0 []) as [arts' [Hrun Hall]].
  rewrite Hrun in Hloop. injection Hloop as _ <-. cbn [app] in Hin.
  destruct (Forall2_In_right _ _ _ a Hall Hin) as [c [Hc Hgen]].
  apply filter_In in Hc as [Hc Hr].
  unfold rendered in Hr. destruct (date_time c) as [dt|] eqn:E;
    [|discriminate].
  exists c, dt. repeat split; try assumption.
  pose proof (parse_contacts_schools parser_parse text contacts Hparse) as S.
  rewrite Forall_forall in S. now apply S.
Qed.

Lemma C4_article_needs_school_and_instant_witness :
  school (set_questions ["1. Why?"%string] new_contact) = ""%string.
Proof.
  apply (proj1 (C4_article_needs_school_and_instant SampleParser.parse
                  Calendar.astimezone_paris sample_strftime_A_d_B_Y)
           ["Proposed questions"; "1. Why?"]%string).
  - vm_compute. reflexivity.
  - intros l [<-|[<-|[]]]; vm_compute; reflexivity.
Defined.



(** ** The article *)

(** C7: for a contact whose callsign is "W1AW" and whose scheduled
    instant, converted to Europe/Paris, falls on day 26 of month 3 of
    year 2024, the article is produced and its title is "Contact
    radioamateur du 26/03/2024 – W1AW". *)
Theorem C7_title
  (astimezone_paris : datetime -> datetime)
  (strftime_A_d_B_Y : datetime -> string)
  (c : ArissContact) (dt : datetime) :
  callsign c = "W1AW"%string ->
  date_time c = Some dt ->
  day (astimezone_paris dt) = 26%Z ->
  month (astimezone_paris dt) = 3%Z ->
  year (astimezone_paris dt) = 2024%Z ->
  exists a,
    generate_wordpress_article astimezone_paris strftime_A_d_B_Y c = Ok a /\
    title a = "Contact radioamateur du 26/03/2024 – W1AW"%string.
Proof.
  intros Hc Hdt Hd Hm Hy.
  rewrite (generate_with_instant _ _ c dt Hdt).
  eexists. split; [reflexivity|].
  cbn [title]. unfold strftime_dmY. rewrite Hc, Hd, Hm, Hy.
  reflexivity.
Qed.

Lemma C7_title_witness :
  exists a,
    generate_wordpress_article Calendar.astimezone_paris
      sample_strftime_A_d_B_Y
      (mk_contact "Lycee Jules Verne" "Nantes" "W1AW" "145.800 MHz"
         "Jeanette Epps" "KF5QNU"
         (Some (mk_datetime 2024 3 25 23 30 0 (Some UTC)))
         [] "" "" "direct" "") = Ok a /\
    title a = "Contact radioamateur du 26/03/2024 – W1AW"%string.
Proof.
  apply (C7_title Calendar.astimezone_paris sample_strftime_A_d_B_Y _
           (mk_datetime 2024 3 25 23 30 0 (Some UTC)));
    vm_compute; reflexivity.
Defined.




(** * Further properties of the code *)

(** ** More facts about the string primitives *)

Section SplitFacts.

Lemma contains_cons (needle : string) (c : ascii) (s : string) :
  contains needle (String c s)
  = startswith needle (String c s) || contains needle s.
Proof. reflexivity. Qed.

Lemma split_go_cons (sep : string) (c : ascii) (s : string) :
  split_go sep 0 (String c s)
  = if startswith sep (String c s)
    then EmptyString :: split_go sep (String.length sep - 1) s
    else match split_go sep 0 s with
         | p :: ps => String c p :: ps
         | [] => [String c EmptyString]
         end.
Proof. reflexivity. Qed.

(** A text without the separator is its own single piece. *)
Lemma split_without_sep (sep s : string) :
  contains sep s = false -> split sep s = [s].
Proof.
  unfold split. induction s as [|c s IH]; intros H; [reflexivity|].
  rewrite contains_cons in H. apply orb_false_iff in H as [Hp Hc].
  rewrite split_go_cons, Hp, (IH Hc). reflexivity.
Qed.

(** A text with the separator has at least two pieces. *)
Lemma split_with_sep (sep s : string) :
  sep <> ""%string ->
  contains sep s = true -> 2 <= List.length (split sep s).
Proof.
  intros Hsep. unfold split. induction s as [|c s IH]; intros H.
  - destruct sep; [congruence | discriminate H].
  - rewrite contains_cons in H. rewrite split_go_cons.
    destruct (startswith sep (String c s)) eqn:Hp.
    + pose proof (split_go_nonempty sep s (String.length sep - 1)) as N.
      destruct (split_go sep (String.length sep - 1) s); [congruence|].
      cbn [List.length]. lia.
    + cbn [orb] in H. specialize (IH H).
      destruct (split_go sep 0 s) as [|p ps]; [cbn in IH; lia|].
      exact IH.
Qed.

Lemma getitem_0_split (sep s : string) :
  exists v, getitem (split sep s) 0 = Ok v.
Proof.
  unfold split. pose proof (split_go_nonempty sep s 0) as N.
  destruct (split_go sep 0 s) as [|p ps]; [congruence|].
  exists p. reflexivity.
Qed.

Lemma getitem_1_split_without (sep s : string) :
  contains sep s = false -> getitem (split sep s) 1 = Raise IndexError.
Proof. intros H. now rewrite (split_without_sep _ _ H). Qed.

Lemma getitem_1_split_with (sep s : string) :
  sep <> ""%string ->
  contains sep s = true -> exists v, getitem (split sep s) 1 = Ok v.
Proof.
  intros Hsep H. apply split_with_sep in H; [|exact Hsep].
  destruct (split sep s) as [|p [|q qs]]; cbn in H; try lia.
  exists q. reflexivity.
Qed.

Lemma contains_decompose (needle s : string) :
  contains needle s = true ->
  exists a b, s = (a ++ needle ++ b)%string.
Proof.
  induction s as [|c s IH]; intros H.
  - destruct needle; [|discriminate H]. exists ""%string, ""%string.
    reflexivity.
  - rewrite contains_cons in H. apply orb_true_iff in H as [H|H].
    + exists ""%string. eexists. cbn [append]. now apply startswith_drop.
    + destruct (IH H) as [a [b ->]]. exists (String c a), b. reflexivity.
Qed.

(** A text that contains [b] contains every text that [b] contains. *)
Lemma contains_trans (a b s : string) :
  contains a b = true -> contains b s = true -> contains a s = true.
Proof.
  intros Hab Hbs.
  destruct (contains_decompose _ _ Hab) as [u [v ->]].
  destruct (contains_decompose _ _ Hbs) as [x [y ->]].
  replace (x ++ (u ++ a ++ v) ++ y)%string
    with ((x ++ u) ++ a ++ (v ++ y))%string
    by now rewrite !append_assoc.
  apply contains_append.
Qed.

Lemma split_go_skip (sep p b : string) :
  split_go sep (String.length p) (p ++ b) = split_go sep 0 b.
Proof.
  induction p as [|c p IH]; cbn [String.length append].
  - reflexivity.
  - cbn [split_go]. exact IH.
Qed.

Lemma startswith_short (p u v : string) :
  startswith p (u ++ v) = true -> String.length p <= String.length u ->
  startswith p u = true.
Proof.
  revert u; induction p as [|a p IH]; intros u H L; [reflexivity|].
  destruct u as [|b u]; cbn [String.length] in L; [lia|].
  cbn [append startswith] in *.
  apply andb_true_iff in H as [Hab Hp]. rewrite Hab. cbn [andb].
  apply IH; [exact Hp | lia].
Qed.

Lemma init_last (s : string) :
  s <> ""%string ->
  exists z, s = (init s ++ String z "")%string
            /\ S (String.length (init s)) = String.length s.
Proof.
  induction s as [|c s IH]; intros H; [congruence|].
  destruct s as [|d s].
  - exists c. split; reflexivity.
  - destruct IH as [z [E L]]; [discriminate|].
    exists z. cbn [init]. cbn [append String.length]. split.
    + f_equal. exact E.
    + f_equal. exact L.
Qed.

(** The first piece of a split ends at the first occurrence of the
    separator: when the separator does not occur in [a] followed by all
    but its own last character, the pieces of [a ++ sep ++ b] are [a]
    and the pieces of [b]. *)
Lemma split_first (sep a b : string) :
  sep <> ""%string ->
  contains sep (a ++ init sep) = false ->
  split sep (a ++ sep ++ b) = a :: split sep b.
Proof.
  intros Hsep. unfold split. induction a as [|c a IH]; intros H.
  - cbn [append]. destruct sep as [|x sep']; [congruence|].
    cbn [append]. rewrite split_go_cons.
    change (String x (sep' ++ b)) with (String x sep' ++ b)%string.
    rewrite startswith_append.
    replace (String.length (String x sep') - 1) with (String.length sep')
      by (cbn [String.length]; lia).
    now rewrite split_go_skip.
  - cbn [append] in *. rewrite contains_cons in H.
    apply orb_false_iff in H as [Hp Hc].
    rewrite split_go_cons.
    destruct (startswith sep (String c (a ++ sep ++ b))) eqn:Hs.
    + exfalso. destruct (init_last sep Hsep) as [z [E L]].
      rewrite E in Hs at 2.
      change (String c (a ++ (init sep ++ String z "") ++ b))
        with (String c a ++ (init sep ++ String z "") ++ b)%string in Hs.
      rewrite append_assoc, <- (append_assoc (String c a)) in Hs.
      apply startswith_short in Hs.
      * cbn [append] in Hs. congruence.
      * rewrite length_append. cbn [String.length]. lia.
    + now rewrite (IH Hc).
Qed.

End SplitFacts.

(** ** When a rule raises, and what it stores when it does not *)

Lemma rule_of_trigger (l : string) (r : rule) :
  rule_of l = Some r -> trigger r l = true.
Proof.
  unfold rule_of. intros H.
  apply (find_some (fun r => trigger r l) rules H).
Qed.

Lemma parse_line_fires (parser_parse : string -> result datetime)
  (c : ArissContact) (l : string) (r : rule) :
  rule_of l = Some r ->
  parse_line parser_parse c l = run_rule parser_parse r l c.
Proof. intros H. now rewrite parse_line_dispatch, H. Qed.

Lemma trigger_school_fires (l : string) :
  trigger_school l = true -> rule_of l = Some RSchool.
Proof.
  intros H. unfold rule_of, rules. cbn [find trigger]. now rewrite H.
Qed.

Lemma split_single (sep s p : string) :
  sep <> ""%string -> split sep s = [p] -> p = s.
Proof.
  intros Hsep E. pose proof (join_split sep s Hsep) as J.
  rewrite E in J. exact J.
Qed.

Ltac simpl_items :=
  cbn [getitem nth_error List.length Nat.ltb Nat.leb bind hd] in *.

(** The school rule on every line: a line without a comma goes whole,
    trimmed, into the school; a line whose comma split has exactly two
    parts raises [IndexError]; any other line is read without an
    exception and its first part, trimmed, is the school. *)
Theorem school_line_outcomes (parser_parse : string -> result datetime)
  (c : ArissContact) (l : string) :
  trigger_school l = true ->
  (parse_line parser_parse c l = Raise IndexError
   <-> List.length (split "," l) = 2) /\
  (contains "," l = false ->
   parse_line parser_parse c l = Ok (set_school (strip l) c)) /\
  (List.length (split "," l) <> 2 ->
   exists c', parse_line parser_parse c l = Ok c' /\
              school c' = strip (hd ""%string (split "," l))).
Proof.
  intros Ht.
  rewrite (parse_line_fires _ c l RSchool (trigger_school_fires l Ht)).
  cbn [run_rule]. unfold rule_school.
  split; [|split].
  - destruct (split "," l) as [|p0 [|p1 [|p2 more]]] eqn:E; simpl_items.
    + now apply split_go_nonempty in E.
    + split; [discriminate | discriminate].
    + split; reflexivity.
    + destruct (getitem_0_split " via " (strip p2)) as [t0 Ht0].
      rewrite Ht0. simpl_items.
      destruct (split " via " (strip p2)) as [|q0 [|q1 qs]]; simpl_items;
        split; try discriminate; intros H; cbn in H; lia.
  - intros Hc. rewrite (split_without_sep _ _ Hc). simpl_items. reflexivity.
  - intros Hlen.
    destruct (split "," l) as [|p0 [|p1 [|p2 more]]] eqn:E; simpl_items.
    + now apply split_go_nonempty in E.
    + eexists. split; reflexivity.
    + congruence.
    + destruct (split " via " (strip p2)) as [|q0 [|q1 qs]] eqn:E2;
        simpl_items.
      * now apply split_go_nonempty in E2.
      * eexists. split; reflexivity.
      * eexists. split; reflexivity.
Qed.

Lemma school_line_outcomes_witness :
  parse_line SampleParser.parse new_contact
    "Lycee Jules Verne direct via F1ABC"
  = Ok (set_school (strip "Lycee Jules Verne direct via F1ABC") new_contact).
Proof.
  apply (proj1 (proj2 (school_line_outcomes SampleParser.parse new_contact
                         "Lycee Jules Verne direct via F1ABC"
                         ltac:(vm_compute; reflexivity)))).
  vm_compute. reflexivity.
Defined.

(** A school line of exactly three comma-separated parts whose third
    part, trimmed, reads "type via station" gives the four fields: the
    trimmed first and second parts are the school and the location, the
    text before " via " is the contact type and the text after it the
    callsign. *)
Theorem school_line_three_parts (parser_parse : string -> result datetime)
  (c : ArissContact) (p0 p1 p2 ty cs : string) :
  trigger_school (p0 ++ "," ++ p1 ++ "," ++ p2) = true ->
  contains "," p0 = false ->
  contains "," p1 = false ->
  contains "," p2 = false ->
  strip p2 = (ty ++ " via " ++ cs)%string ->
  contains " via " (ty ++ " via") = false ->
  contains " via " cs = false ->
  parse_line parser_parse c (p0 ++ "," ++ p1 ++ "," ++ p2)
  = Ok (set_callsign (strip cs)
          (set_contact_type (strip ty)
             (set_location (strip p1) (set_school (strip p0) c)))).
Proof.
  intros Ht H0 H1 H2 Hp2 Hty Hcs.
  rewrite (parse_line_fires _ c _ RSchool (trigger_school_fires _ Ht)).
  cbn [run_rule]. unfold rule_school.
  assert (E : split "," (p0 ++ "," ++ p1 ++ "," ++ p2) = [p0; p1; p2]).
  { rewrite split_first; [|discriminate|cbn [init]; now rewrite append_nil_r].
    rewrite split_first; [|discriminate|cbn [init]; now rewrite append_nil_r].
    now rewrite (split_without_sep _ _ H2). }
  rewrite E. simpl_items. rewrite Hp2.
  rewrite split_first; [|discriminate|exact Hty].
  rewrite (split_without_sep _ _ Hcs). simpl_items. reflexivity.
Qed.

Lemma school_line_three_parts_witness :
  parse_line SampleParser.parse new_contact
    ("Lycee Jules Verne" ++ "," ++ " Nantes" ++ "," ++ " direct via F1ABC")
  = Ok (set_callsign (strip "F1ABC")
          (set_contact_type (strip "direct")
             (set_location (strip " Nantes")
                (set_school (strip "Lycee Jules Verne") new_contact)))).
Proof.
  apply (school_line_three_parts SampleParser.parse new_contact
           "Lycee Jules Verne" " Nantes" " direct via F1ABC"
           "direct" "F1ABC"); vm_compute; reflexivity.
Defined.

(** The frequency rule: a line that fires it raises [IndexError] exactly
    when it has no "be"; when "be" first occurs after [a] and does not
    occur again, the frequency is the trimmed text that follows it. *)
Theorem frequency_line_outcomes (parser_parse : string -> result datetime)
  (c : ArissContact) (l : string) :
  rule_of l = Some RFrequency ->
  (parse_line parser_parse c l = Raise IndexError
   <-> contains "be" l = false) /\
  (contains "be" l = true ->
   exists v, parse_line parser_parse c l = Ok (set_frequency v c)) /\
  (forall a v,
      l = (a ++ "be" ++ v)%string ->
      contains "be" (a ++ "b") = false ->
      contains "be" v = false ->
      parse_line parser_parse c l = Ok (set_frequency (strip v) c)).
Proof.
  intros Hr. rewrite (parse_line_fires _ c l RFrequency Hr).
  cbn [run_rule]. unfold rule_frequency.
  split; [|split].
  - destruct (contains "be" l) eqn:Hc.
    + destruct (getitem_1_split_with "be" l ltac:(discriminate) Hc)
        as [v Hv].
      rewrite Hv. simpl_items. split; discriminate.
    + rewrite (getitem_1_split_without _ _ Hc). simpl_items.
      split; reflexivity.
  - intros Hc.
    destruct (getitem_1_split_with "be" l ltac:(discriminate) Hc) as [v Hv].
    rewrite Hv. simpl_items. now exists (strip v).
  - intros a v -> Ha Hv.
    rewrite split_first; [|discriminate|exact Ha].
    rewrite (split_without_sep _ _ Hv). simpl_items. reflexivity.
Qed.

Lemma frequency_line_outcomes_witness :
  parse_line SampleParser.parse new_contact
    "Downlink frequency is presently scheduled to be 145.800 MHz"
  = Ok (set_frequency (strip " 145.800 MHz") new_contact).
Proof.
  apply (proj2 (proj2 (frequency_line_outcomes SampleParser.parse new_contact
           "Downlink frequency is presently scheduled to be 145.800 MHz"
           ltac:(vm_compute; reflexivity)))
           "Downlink frequency is presently scheduled to "%string
           " 145.800 MHz"%string);
    vm_compute; reflexivity.
Defined.

Lemma getlast_snoc {A : Type} (l : list A) :
  l <> [] ->
  exists l' x, l = l' ++ [x] /\ getlast l = Ok x /\ removelast l = l'.
Proof.
  intros H. destruct (exists_last H) as [l' [x E]].
  exists l', x. split; [exact E|]. subst l. split.
  - unfold getlast. now rewrite rev_unit.
  - apply removelast_last.
Qed.

Lemma join_snoc (sep : string) (ps : list string) (x : string) :
  ps <> [] -> join sep (ps ++ [x]) = (join sep ps ++ sep ++ x)%string.
Proof.
  induction ps as [|p ps IH]; intros H; [congruence|].
  destruct ps as [|q qs].
  - reflexivity.
  - change (join sep ((p :: q :: qs) ++ [x]))
      with (p ++ sep ++ join sep ((q :: qs) ++ [x]))%string.
    rewrite IH; [|discriminate].
    change (join sep (p :: q :: qs))
      with (p ++ sep ++ join sep (q :: qs))%string.
    now rewrite !append_assoc.
Qed.

Lemma rule_crew_ok (c : ArissContact) (l : string) :
  contains "is" l = true -> exists c', rule_crew l c = Ok c'.
Proof.
  intros Hc. unfold rule_crew.
  destruct (getitem_1_split_with "is" l ltac:(discriminate) Hc) as [ci Hci].
  rewrite Hci. cbn [bind]. cbv zeta.
  destruct (contains " " (strip ci)); [|eexists; reflexivity].
  destruct (1 <? List.length (split " " (strip ci)))%nat;
    [|eexists; reflexivity].
  destruct (getlast_snoc (split " " (strip ci))
              (split_go_nonempty _ _ _)) as [l' [x [_ [Hx _]]]].
  rewrite Hx. cbn [bind]. eexists; reflexivity.
Qed.

(** The crew rule raises [IndexError] exactly on the lines that have no
    "is" in lower case, although its trigger is matched without regard to
    case. *)
Theorem crew_line_raises (parser_parse : string -> result datetime)
  (c : ArissContact) (l : string) :
  rule_of l = Some RCrew ->
  (parse_line parser_parse c l = Raise IndexError
   <-> contains "is" l = false) /\
  (contains "is" l = true ->
   exists c', parse_line parser_parse c l = Ok c').
Proof.
  intros Hr. rewrite (parse_line_fires _ c l RCrew Hr).
  cbn [run_rule].
  split; [|apply rule_crew_ok].
  destruct (contains "is" l) eqn:Hc.
  - destruct (rule_crew_ok c l Hc) as [c' Hc']. rewrite Hc'.
    split; discriminate.
  - unfold rule_crew. rewrite (getitem_1_split_without _ _ Hc). cbn [bind].
    split; reflexivity.
Qed.

Lemma crew_line_raises_witness :
  parse_line SampleParser.parse new_contact
    "THE SCHEDULED CREWMEMBER IS JEANETTE EPPS KF5QNU" = Raise IndexError.
Proof.
  apply (proj1 (crew_line_raises SampleParser.parse new_contact
                  "THE SCHEDULED CREWMEMBER IS JEANETTE EPPS KF5QNU"
                  ltac:(vm_compute; reflexivity))).
  vm_compute. reflexivity.
Defined.

(** What the crew rule stores: with [ci] the text between the first and
    the second "is" of the line, trimmed, a crew information that has a
    space is cut at its last space into the astronaut and a callsign
    without a space, so that astronaut, a space and callsign give it
    back; one without a space is the astronaut and the callsign is left
    as it was. *)
Theorem crew_line_name_and_callsign
  (parser_parse : string -> result datetime)
  (c c' : ArissContact) (l ci : string) :
  rule_of l = Some RCrew ->
  getitem (split "is" l) 1 = Ok ci ->
  parse_line parser_parse c l = Ok c' ->
  (contains " " (strip ci) = true ->
   (astronaut c' ++ " " ++ astronaut_callsign c')%string = strip ci /\
   contains " " (astronaut_callsign c') = false) /\
  (contains " " (strip ci) = false ->
   c' = set_astronaut (strip ci) c).
Proof.
  intros Hr Hci. rewrite (parse_line_fires _ c l RCrew Hr).
  cbn [run_rule]. unfold rule_crew. rewrite Hci. cbn [bind]. cbv zeta.
  destruct (contains " " (strip ci)) eqn:Hs.
  - pose proof (split_with_sep " " (strip ci) ltac:(discriminate) Hs) as L.
    replace (1 <? List.length (split " " (strip ci)))%nat with true
      by (symmetry; apply Nat.ltb_lt; lia).
    destruct (getlast_snoc (split " " (strip ci))
                (split_go_nonempty _ _ _)) as [l' [x [E [Hx Hrem]]]].
    rewrite Hx, Hrem. cbn [bind]. intros H; injection H as <-.
    simpl_fields. split; [|discriminate]. intros _. split.
    + transitivity (join " " (split " " (strip ci)));
        [|apply join_split; discriminate].
      rewrite E. rewrite join_snoc; [reflexivity|].
      intros ->. rewrite E in L. cbn in L. lia.
    + apply (split_go_no_sep " " ltac:(discriminate) (strip ci) 0).
      fold (split " " (strip ci)). rewrite E.
      apply in_or_app. right. now left.
  - intros H; injection H as <-. split; [discriminate|reflexivity].
Qed.

Lemma crew_line_name_and_callsign_witness :
  (astronaut
     (set_astronaut_callsign "KF5QNU"
        (set_astronaut "Jeanette Epps" new_contact))
   ++ " "
   ++ astronaut_callsign
        (set_astronaut_callsign "KF5QNU"
           (set_astronaut "Jeanette Epps" new_contact)))%string
  = strip " Jeanette Epps KF5QNU".
Proof.
  apply (proj1 (crew_line_name_and_callsign SampleParser.parse new_contact _
                  "The scheduled crewmember is Jeanette Epps KF5QNU"
                  " Jeanette Epps KF5QNU"
                  ltac:(vm_compute; reflexivity)
                  ltac:(vm_compute; reflexivity)
                  ltac:(vm_compute; reflexivity))).
  vm_compute. reflexivity.
Defined.

(** The livestream and mentor rules never raise on a line that fires
    them: their trigger text contains the separator they split on. *)
Theorem livestream_and_mentor_lines_never_raise
  (parser_parse : string -> result datetime)
  (c : ArissContact) (l : string) :
  (rule_of l = Some RLivestream ->
   exists v, parse_line parser_parse c l = Ok (set_livestream v c)) /\
  (rule_of l = Some RMentor ->
   exists v, parse_line parser_parse c l = Ok (set_mentor v c)).
Proof.
  split; intros Hr; rewrite (parse_line_fires _ c l _ Hr);
    cbn [run_rule]; apply rule_of_trigger in Hr; cbn [trigger] in Hr.
  - unfold rule_livestream.
    assert (Hc : contains "at" l = true).
    { apply (contains_trans "at" "Watch for the Livestream at" l);
        [reflexivity | exact Hr]. }
    destruct (getitem_1_split_with "at" l ltac:(discriminate) Hc) as [v Hv].
    rewrite Hv. cbn [bind]. now exists (strip v).
  - unfold rule_mentor.
    assert (Hc : contains "is" l = true).
    { apply (contains_trans "is" "The ARISS mentor is" l);
        [reflexivity | exact Hr]. }
    destruct (getitem_1_split_with "is" l ltac:(discriminate) Hc) as [v Hv].
    rewrite Hv. cbn [bind]. now exists (strip v).
Qed.

Lemma livestream_and_mentor_lines_never_raise_witness :
  exists v,
    parse_line SampleParser.parse new_contact
      "The ARISS mentor is Jean F1XYZ" = Ok (set_mentor v new_contact).
Proof.
  apply (proj2 (livestream_and_mentor_lines_never_raise SampleParser.parse
                  new_contact "The ARISS mentor is Jean F1XYZ")).
  vm_compute. reflexivity.
Defined.

Lemma getitem_raises {A : Type} (l : list A) (i : nat) (x : exn) :
  getitem l i = Raise x -> x = IndexError.
Proof.
  unfold getitem. destruct (nth_error l i); [discriminate|].
  now intros H; injection H as <-.
Qed.

Lemma rule_go_for_unfold (parser_parse : string -> result datetime)
  (c : ArissContact) (l a b : string) :
  getitem (split "Contact is go for:" l) 1 = Ok a ->
  getitem (split "UTC" a) 0 = Ok b ->
  rule_go_for parser_parse l c
  = match parser_parse (strip b) with
    | Ok parsed =>
        match getitem (split "UTC" l) 1 with
        | Ok e =>
            if truthy (strip e)
            then Ok (set_elevation (strip e)
                       (set_date_time (Some (utc_instant parsed)) c))
            else Ok (set_date_time (Some (utc_instant parsed)) c)
        | Raise _ => Raise IndexError
        end
    | Raise ValueError => Ok c
    | Raise x => Raise x
    end.
Proof.
  intros Ha Hb. unfold rule_go_for. rewrite Ha. cbn [bind]. rewrite Hb.
  cbn [bind]. cbv zeta. unfold utc_instant.
  destruct (parser_parse (strip b)) as [parsed|e]; cbn [bind].
  - destruct (getitem (split "UTC" l) 1) as [e|x] eqn:G; cbn [bind].
    + destruct (truthy (strip e)); reflexivity.
    + rewrite (getitem_raises _ _ _ G). reflexivity.
  - now destruct e.
Qed.

(** The go-for rule on every line that fires it, with [d] the trimmed
    text between the marker and the next "UTC": a [ValueError] of the
    date reader leaves the contact as it was, any other exception of the
    reader leaves the parser, and when the date is read the line must
    contain "UTC", or [IndexError] is raised although the date was read;
    with "UTC" the instant is stored with the clock fields read and the
    UTC zone, and the elevation is set only to a text that is not
    empty. *)
Theorem go_for_line_outcomes (parser_parse : string -> result datetime)
  (c : ArissContact) (l : string) :
  rule_of l = Some RGoFor ->
  exists d,
    date_time_str l = Ok d /\
    match parser_parse d with
    | Raise ValueError => parse_line parser_parse c l = Ok c
    | Raise e => parse_line parser_parse c l = Raise e
    | Ok parsed =>
        (contains "UTC" l = false ->
         parse_line parser_parse c l = Raise IndexError) /\
        (contains "UTC" l = true ->
         exists c',
           parse_line parser_parse c l = Ok c' /\
           date_time c' = Some (utc_instant parsed) /\
           (c' = set_date_time (Some (utc_instant parsed)) c \/
            exists ev,
              ev <> ""%string /\
              c' = set_elevation ev
                     (set_date_time (Some (utc_instant parsed)) c)))
    end.
Proof.
  intros Hr. rewrite (parse_line_fires _ c l RGoFor Hr). cbn [run_rule].
  apply rule_of_trigger in Hr. cbn [trigger] in Hr.
  destruct (getitem_1_split_with "Contact is go for:" l
              ltac:(discriminate) Hr) as [a Ha].
  destruct (getitem_0_split "UTC" a) as [b Hb].
  exists (strip b). split.
  { unfold date_time_str. rewrite Ha. cbn [bind]. rewrite Hb. reflexivity. }
  rewrite (rule_go_for_unfold _ c l a b Ha Hb).
  destruct (parser_parse (strip b)) as [parsed|e].
  - split; intros Hc.
    + now rewrite (getitem_1_split_without _ _ Hc).
    + destruct (getitem_1_split_with "UTC" l ltac:(discriminate) Hc)
        as [e He].
      rewrite He. destruct (truthy (strip e)) eqn:T.
      * eexists. split; [reflexivity|]. split; [reflexivity|].
        right. exists (strip e). split; [|reflexivity].
        now apply truthy_iff.
      * eexists. split; [reflexivity|]. split; [reflexivity|]. now left.
  - destruct e; reflexivity.
Qed.

Lemma go_for_line_outcomes_witness :
  exists d,
    date_time_str "Contact is go for: 25 March 2024 18:30" = Ok d /\
    SampleParser.parse d = Ok (mk_datetime 2024 3 25 18 30 0 None) /\
    parse_line SampleParser.parse new_contact
      "Contact is go for: 25 March 2024 18:30" = Raise IndexError.
Proof.
  destruct (go_for_line_outcomes SampleParser.parse new_contact
              "Contact is go for: 25 March 2024 18:30"
              ltac:(vm_compute; reflexivity)) as [d [Hd H]].
  exists d. split; [exact Hd|].
  assert (E : d = "25 March 2024 18:30"%string)
    by (vm_compute in Hd; now injection Hd as <-).
  subst d. split; [vm_compute; reflexivity|].
  change (SampleParser.parse "25 March 2024 18:30")
    with (Ok (mk_datetime 2024 3 25 18 30 0 None)) in H.
  cbv beta iota in H. apply (proj1 H). vm_compute. reflexivity.
Defined.

(** A line that starts with the marker "Contact is go for:", followed by
    a date text [d], the token "UTC" and a rest [e] (no further marker or
    token): when the date reader reads the trimmed [d], the instant is
    stored with the clock fields read and the UTC zone attached, and the
    trimmed [e], if it is not empty, becomes the elevation. *)
Theorem go_for_line_reads (parser_parse : string -> result datetime)
  (c : ArissContact) (d e : string) (parsed : datetime) :
  rule_of ("Contact is go for:" ++ d ++ "UTC" ++ e) = Some RGoFor ->
  contains "Contact is go for:" (d ++ "UTC" ++ e) = false ->
  contains "UTC" (d ++ "UT") = false ->
  contains "UTC" e = false ->
  parser_parse (strip d) = Ok parsed ->
  parse_line parser_parse c ("Contact is go for:" ++ d ++ "UTC" ++ e)
  = Ok (if truthy (strip e)
        then set_elevation (strip e)
               (set_date_time (Some (utc_instant parsed)) c)
        else set_date_time (Some (utc_instant parsed)) c).
Proof.
  intros Hr Hm Hd He Hp.
  rewrite (parse_line_fires _ c _ RGoFor Hr). cbn [run_rule].
  assert (Ha : getitem
                 (split "Contact is go for:"
                    ("Contact is go for:" ++ d ++ "UTC" ++ e)) 1
               = Ok (d ++ "UTC" ++ e)%string).
  { change ("Contact is go for:" ++ d ++ "UTC" ++ e)%string
      with ("" ++ "Contact is go for:" ++ (d ++ "UTC" ++ e))%string.
    rewrite split_first; [|discriminate|reflexivity].
    now rewrite (split_without_sep _ _ Hm). }
  assert (Hb : getitem (split "UTC" (d ++ "UTC" ++ e)) 0 = Ok d).
  { rewrite split_first; [reflexivity|discriminate|exact Hd]. }
  rewrite (rule_go_for_unfold _ c _ _ _ Ha Hb), Hp.
  assert (Hl : getitem
                 (split "UTC" ("Contact is go for:" ++ d ++ "UTC" ++ e)) 1
               = Ok e).
  { replace ("Contact is go for:" ++ d ++ "UTC" ++ e)%string
      with (("Contact is go for:" ++ d) ++ "UTC" ++ e)%string
      by now rewrite append_assoc.
    rewrite split_first; [|discriminate|].
    - now rewrite (split_without_sep _ _ He).
    - rewrite append_assoc. cbn [init].
      repeat (rewrite contains_cons; cbn [append];
              match goal with
              | |- context [startswith "UTC" (String ?x ?s)] =>
                  change (startswith "UTC" (String x s)) with false
              end; cbn [orb]).
      exact Hd. }
  rewrite Hl. now destruct (truthy (strip e)).
Qed.

Lemma go_for_line_reads_witness :
  parse_line SampleParser.parse new_contact
    ("Contact is go for:" ++ " 26 March 2024 09:05 " ++ "UTC" ++ " 45 deg")
  = Ok (if truthy (strip " 45 deg")
        then set_elevation (strip " 45 deg")
               (set_date_time
                  (Some (utc_instant (mk_datetime 2024 3 26 9 5 0 None)))
                  new_contact)
        else set_date_time
               (Some (utc_instant (mk_datetime 2024 3 26 9 5 0 None)))
               new_contact).
Proof.
  apply (go_for_line_reads SampleParser.parse new_contact
           " 26 March 2024 09:05 " " 45 deg"
           (mk_datetime 2024 3 26 9 5 0 None));
    vm_compute; reflexivity.
Defined.

(** A line that starts with "Watch for the Livestream at" never gives the
    address that follows: the text is cut at the "at" of "Watch", and the
    livestream stored is "ch for the Livestream" whatever the rest of the
    line is. *)
Theorem livestream_line_loses_address
  (parser_parse : string -> result datetime)
  (c : ArissContact) (rest : string) :
  rule_of ("Watch for the Livestream at" ++ rest) = Some RLivestream ->
  parse_line parser_parse c ("Watch for the Livestream at" ++ rest)
  = Ok (set_livestream "ch for the Livestream" c).
Proof.
  intros Hr. rewrite (parse_line_fires _ c _ RLivestream Hr).
  cbn [run_rule]. unfold rule_livestream.
  change ("Watch for the Livestream at" ++ rest)%string
    with ("W" ++ "at" ++ ("ch for the Livestream " ++ "at" ++ rest))%string.
  rewrite split_first; [|discriminate|reflexivity].
  rewrite split_first; [|discriminate|reflexivity].
  reflexivity.
Qed.

Lemma livestream_line_loses_address_witness :
  parse_line SampleParser.parse new_contact
    ("Watch for the Livestream at" ++ " https://live.ariss.org/")
  = Ok (set_livestream "ch for the Livestream" new_contact).
Proof.
  apply (livestream_line_loses_address SampleParser.parse new_contact
           " https://live.ariss.org/").
  vm_compute. reflexivity.
Defined.

(** A line that starts with "The ARISS mentor is" stores as mentor the
    trimmed text that follows, up to the next "is" if there is one. *)
Theorem mentor_line_reads (parser_parse : string -> result datetime)
  (c : ArissContact) (rest : string) :
  rule_of ("The ARISS mentor is" ++ rest) = Some RMentor ->
  parse_line parser_parse c ("The ARISS mentor is" ++ rest)
  = Ok (set_mentor (strip (hd ""%string (split "is" rest))) c) /\
  (contains "is" rest = false ->
   parse_line parser_parse c ("The ARISS mentor is" ++ rest)
   = Ok (set_mentor (strip rest) c)).
Proof.
  intros Hr. rewrite (parse_line_fires _ c _ RMentor Hr).
  cbn [run_rule]. unfold rule_mentor.
  change ("The ARISS mentor is" ++ rest)%string
    with ("The ARISS mentor " ++ "is" ++ rest)%string.
  rewrite split_first; [|discriminate|reflexivity].
  split.
  - pose proof (split_go_nonempty "is" rest 0) as N. unfold split.
    destruct (split_go "is" 0 rest); [congruence | reflexivity].
  - intros Hc. now rewrite (split_without_sep _ _ Hc).
Qed.

Lemma mentor_line_reads_witness :
  parse_line SampleParser.parse new_contact
    ("The ARISS mentor is" ++ " Jean F1XYZ")
  = Ok (set_mentor (strip " Jean F1XYZ") new_contact).
Proof.
  apply (proj2 (mentor_line_reads SampleParser.parse new_contact
                  " Jean F1XYZ" ltac:(vm_compute; reflexivity))).
  vm_compute. reflexivity.
Defined.

(** ** Blocks and newsletters *)

Section BlockProperties.

Variable parser_parse : string -> result datetime.

Lemma parse_lines_no_rule (lines : list string) (c : ArissContact) :
  (forall l, In l lines -> rule_of l = None) ->
  parse_lines parser_parse c lines = Ok c.
Proof.
  induction lines as [|l lines IH]; intros H; cbn [parse_lines].
  - reflexivity.
  - rewrite parse_line_dispatch, (H l (or_introl eq_refl)). cbn [bind].
    apply IH. intros l' Hin. apply H. now right.
Qed.

Lemma parse_sections_app (a b : list string) :
  forall contacts,
    parse_sections parser_parse (a ++ b) contacts
    = (cs <- parse_sections parser_parse a contacts ;;
       parse_sections parser_parse b cs).
Proof.
  induction a as [|s a IH]; intros contacts; cbn [app parse_sections].
  - reflexivity.
  - destruct (negb (truthy (strip s))); [apply IH|].
    unfold bind at 1 3.
    destruct (parse_block parser_parse (split LF (strip s))); [|reflexivity].
    apply IH.
Qed.

Lemma parse_sections_kept (sections : list string) :
  forall contacts,
    parse_sections parser_parse sections contacts
    = parse_sections parser_parse (filter kept sections) contacts.
Proof.
  induction sections as [|s sections IH]; intros contacts;
    [reflexivity|].
  cbn [filter]. unfold kept at 1.
  destruct (truthy (strip s)) eqn:T.
  - cbn [parse_sections]. rewrite T. cbn [negb]. unfold bind.
    destruct (parse_block parser_parse (split LF (strip s))); [|reflexivity].
    apply IH.
  - cbn [parse_sections]. rewrite T. cbn [negb]. apply IH.
Qed.

Lemma parse_sections_grows (sections : list string) :
  forall contacts result,
    parse_sections parser_parse sections contacts = Ok result ->
    exists added,
      result = contacts ++ added /\
      List.length added <= List.length (filter kept sections).
Proof.
  induction sections as [|s sections IH]; intros contacts result H;
    cbn [parse_sections] in H.
  - injection H as <-. exists []. rewrite app_nil_r. split; [reflexivity|].
    cbn. lia.
  - cbn [filter]. unfold kept at 1.
    destruct (truthy (strip s)); cbn [negb] in H.
    + unfold bind in H.
      destruct (parse_block parser_parse (split LF (strip s))) as [c|];
        [|discriminate].
      destruct (IH _ _ H) as [added [E L]].
      destruct (truthy (school c)).
      * exists (c :: added). rewrite E, <- app_assoc. split; [reflexivity|].
        cbn [List.length]. lia.
      * exists added. split; [exact E|]. cbn [List.length]. lia.
    + apply (IH _ _ H).
Qed.

Lemma parse_sections_raises (sections : list string) :
  forall contacts e,
    parse_sections parser_parse sections contacts = Raise e ->
    exists s, In s (filter kept sections) /\
              parse_block parser_parse (section_lines s) = Raise e.
Proof.
  induction sections as [|s sections IH]; intros contacts e H;
    cbn [parse_sections] in H; [discriminate|].
  cbn [filter]. unfold kept at 1.
  destruct (truthy (strip s)); cbn [negb] in H.
  - unfold bind in H.
    destruct (parse_block parser_parse (split LF (strip s))) as [c|e0] eqn:B.
    + destruct (IH _ _ H) as [s' [Hin Hs']]. exists s'. split;
        [now right | exact Hs'].
    + injection H as <-. exists s. split; [now left | exact B].
  - apply (IH _ _ H).
Qed.

Lemma parse_sections_raises_if (sections : list string) (s : string)
  (e : exn) :
  In s (filter kept sections) ->
  parse_block parser_parse (section_lines s) = Raise e ->
  forall contacts,
  exists e', parse_sections parser_parse sections contacts = Raise e'.
Proof.
  induction sections as [|s0 sections IH]; intros Hin Hs contacts;
    [destruct Hin|].
  cbn [filter] in Hin. unfold kept at 1 in Hin. cbn [parse_sections].
  destruct (truthy (strip s0)) eqn:T; cbn [negb].
  - unfold bind.
    destruct (parse_block parser_parse (split LF (strip s0))) as [c|e0] eqn:B.
    + destruct Hin as [->|Hin].
      * unfold section_lines in Hs. congruence.
      * apply (IH Hin Hs).
    + now exists e0.
  - apply (IH Hin Hs).
Qed.

End BlockProperties.

(** ** Trimmed text *)

Section StripFacts.

Lemma rstrip_head (c : ascii) (s : string) :
  isspace c = false -> exists r, rstrip (String c s) = String c r.
Proof.
  intros H. cbn [rstrip]. destruct (rstrip s).
  - rewrite H. now exists ""%string.
  - eexists. reflexivity.
Qed.

Lemma rstrip_idempotent (s : string) : rstrip (rstrip s) = rstrip s.
Proof.
  induction s as [|c s IH]; [reflexivity|].
  cbn [rstrip]. destruct (rstrip s) as [|d r] eqn:E.
  - destruct (isspace c) eqn:Hc; [reflexivity|].
    cbn [rstrip]. now rewrite Hc.
  - cbn [rstrip]. cbn [rstrip] in IH. rewrite IH. reflexivity.
Qed.

Lemma lstrip_head (s : string) :
  lstrip s = ""%string \/
  exists c t, lstrip s = String c t /\ isspace c = false.
Proof.
  induction s as [|c s IH]; [now left|].
  cbn [lstrip]. destruct (isspace c) eqn:Hc; [exact IH|].
  right. now exists c, s.
Qed.

(** Trimming a trimmed text changes nothing. *)
Lemma strip_idempotent (s : string) : strip (strip s) = strip s.
Proof.
  unfold strip. destruct (lstrip_head s) as [E|[c [t [E Hc]]]]; rewrite E.
  - reflexivity.
  - destruct (rstrip_head c t Hc) as [r Hr]. rewrite Hr.
    cbn [lstrip]. rewrite Hc. rewrite <- Hr. apply rstrip_idempotent.
Qed.

End StripFacts.

(** ** Questions, from the block to the article *)

Lemma after_heading_incl (lines : list string) (l : string) :
  In l (after_heading lines) -> In l lines.
Proof.
  induction lines as [|x lines IH]; cbn [after_heading]; [tauto|].
  destruct (contains "Proposed questions" x); intros H; right;
    [exact H | now apply IH].
Qed.

(** Every question kept for a block is the trimmed text of one of its
    lines, a line that does not contain "Proposed questions"; it has no
    blank at either end, is not empty and starts with digits followed by
    a period. *)
Theorem questions_are_trimmed_numbered_lines (lines : list string)
  (q : string) :
  In q (extract_questions lines) ->
  strip q = q /\
  q <> ""%string /\
  match_digits_dot q = true /\
  exists l, In l lines /\ q = strip l /\
            contains "Proposed questions" l = false.
Proof.
  rewrite extract_questions_after_heading. intros H.
  apply in_map_iff in H as [l [<- Hl]].
  apply filter_In in Hl as [Hin Hq].
  unfold question_line, numbered_line in Hq.
  apply andb_true_iff in Hq as [Hpq Hq].
  apply andb_true_iff in Hq as [Hq Hd].
  apply andb_true_iff in Hq as [Ht _].
  split; [apply strip_idempotent|].
  split; [now apply truthy_iff|].
  split; [exact Hd|].
  exists l. split; [now apply after_heading_incl|]. split; [reflexivity|].
  now destruct (contains "Proposed questions" l).
Qed.

Lemma questions_are_trimmed_numbered_lines_witness :
  strip "2. How do you sleep?" = "2. How do you sleep?"%string.
Proof.
  apply (questions_are_trimmed_numbered_lines
           ["Proposed questions"; "  1. What is it like in space? ";
            "2. How do you sleep?   "]%string).
  vm_compute. right. now left.
Defined.

Lemma question_lines_In (qs : list string) (q : string) :
  In q qs ->
  exists x y, question_lines qs = (x ++ (q ++ LF) ++ y)%string.
Proof.
  induction qs as [|p qs IH]; intros H; [destruct H|].
  cbn [question_lines]. destruct H as [->|H].
  - exists ""%string, (question_lines qs). cbn [append].
    now rewrite append_assoc.
  - destruct (IH H) as [x [y E]]. rewrite E.
    exists (p ++ LF ++ x)%string, y. now rewrite !append_assoc.
Qed.

(** From the block to the article: when a block is read into a contact
    and the article of that contact is produced, every line after the
    heading that the question pass keeps (a numbered line that does not
    itself contain "Proposed questions") appears in the content of the
    article, trimmed and followed by a line feed. *)
Theorem numbered_lines_reach_the_article
  (parser_parse : string -> result datetime)
  (astimezone_paris : datetime -> datetime)
  (strftime_A_d_B_Y : datetime -> string)
  (lines : list string) (c : ArissContact) (a : Article) :
  parse_block parser_parse lines = Ok c ->
  generate_wordpress_article astimezone_paris strftime_A_d_B_Y c = Ok a ->
  forall l, In l (after_heading lines) -> question_line l = true ->
            contains (strip l ++ LF) (content a) = true.
Proof.
  intros Hb Hgen l Hin Hq.
  destruct (date_time c) as [dt|] eqn:Hdt;
    [|unfold generate_wordpress_article in Hgen; rewrite Hdt in Hgen;
      discriminate Hgen].
  assert (Ec : content a
               = (content_intro strftime_A_d_B_Y c dt (astimezone_paris dt)
                  ++ (if truthy (livestream c)
                      then livestream_paragraph c else "")
                  ++ content_tail c)%string).
  { rewrite (generate_with_instant _ _ c dt Hdt) in Hgen.
    now injection Hgen as <-. }
  rewrite Ec.
  assert (Hqs : In (strip l) (questions c)).
  { rewrite (parse_block_questions _ _ _ Hb),
      extract_questions_after_heading.
    apply in_map. apply filter_In. now split. }
  destruct (question_lines_In _ _ Hqs) as [x [y E]].
  unfold content_tail. rewrite E.
  match goal with
  | |- contains ?n (?i ++ ?p ++ ?m ++ (x ++ ?n ++ y) ++ ?cl) = true =>
      replace (i ++ p ++ m ++ (x ++ n ++ y) ++ cl)%string
        with ((i ++ p ++ m ++ x) ++ n ++ (y ++ cl))%string
        by now rewrite !append_assoc
  end.
  apply contains_append.
Qed.

Lemma numbered_lines_reach_the_article_witness :
  exists a,
    generate_wordpress_article Calendar.astimezone_paris
      sample_strftime_A_d_B_Y
      (mk_contact "" "" "" "" "" "" (Some GO_INSTANT)
         ["1. How do you sleep?"] "" ", max elevation 45 degrees" "" "")
    = Ok a /\
    contains (strip " 1. How do you sleep?" ++ LF) (content a) = true.
Proof.
  eexists. split; [vm_compute; reflexivity|].
  apply (numbered_lines_reach_the_article SampleParser.parse
           Calendar.astimezone_paris sample_strftime_A_d_B_Y
           [GO_LINE; "Proposed questions"; " 1. How do you sleep?"]%string
           (mk_contact "" "" "" "" "" "" (Some GO_INSTANT)
              ["1. How do you sleep?"] "" ", max elevation 45 degrees"
              "" "")).
  - vm_compute. reflexivity.
  - vm_compute. reflexivity.
  - vm_compute. now left.
  - vm_compute. reflexivity.
Defined.

(** ** Whole blocks and whole newsletters *)

(** A block none of whose lines contains a trigger text is read without
    an exception, whatever it holds: the contact keeps every default and
    only receives the questions. *)
Theorem block_without_trigger_lines
  (parser_parse : string -> result datetime) (lines : list string) :
  (forall l, In l lines -> rule_of l = None) ->
  parse_block parser_parse lines
  = Ok (set_questions (extract_questions lines) new_contact).
Proof.
  intros H. unfold parse_block.
  now rewrite (parse_lines_no_rule parser_parse lines new_contact H).
Qed.

Lemma block_without_trigger_lines_witness :
  parse_block SampleParser.parse
    ["Dear all,"; "Proposed questions"; "1. Why?"]%string
  = Ok (set_questions
          (extract_questions
             ["Dear all,"; "Proposed questions"; "1. Why?"]%string)
          new_contact).
Proof.
  apply (block_without_trigger_lines SampleParser.parse).
  intros l [<-|[<-|[<-|[]]]]; vm_compute; reflexivity.
Defined.

(** [parse_contacts] reads exactly the sections that are not blank, in
    order, and lists at most one contact for each of them. *)
Theorem parse_contacts_reads_kept_sections
  (parser_parse : string -> result datetime) (text : string) :
  parse_contacts parser_parse text
  = parse_sections parser_parse (contact_sections text) [] /\
  (forall contacts,
      parse_contacts parser_parse text = Ok contacts ->
      List.length contacts <= List.length (contact_sections text)).
Proof.
  unfold parse_contacts, contact_sections. split.
  - apply parse_sections_kept.
  - intros contacts H.
    destruct (parse_sections_grows parser_parse _ _ _ H) as [added [-> L]].
    exact L.
Qed.

Lemma parse_contacts_reads_kept_sections_witness :
  List.length
    [set_school "Lycee Jules Verne direct via F1ABC" new_contact]
  <= List.length
       (contact_sections
          ("news" ++ DELIMITER ++ "Lycee Jules Verne direct via F1ABC")).
Proof.
  apply (proj2 (parse_contacts_reads_kept_sections SampleParser.parse
                  ("news" ++ DELIMITER
                   ++ "Lycee Jules Verne direct via F1ABC"))).
  vm_compute. reflexivity.
Defined.

(** One block that raises loses the whole newsletter: [parse_contacts]
    raises exactly when the block of some non-blank section raises, and
    then [main] prints no article at all, whatever the other blocks
    hold. *)
Theorem one_failing_block_fails_the_run
  (parser_parse : string -> result datetime)
  (astimezone_paris : datetime -> datetime)
  (strftime_A_d_B_Y : datetime -> string)
  (text : string) :
  (forall e,
      parse_contacts parser_parse text = Raise e ->
      exists s, In s (contact_sections text) /\
                parse_block parser_parse (section_lines s) = Raise e) /\
  (forall s e,
      In s (contact_sections text) ->
      parse_block parser_parse (section_lines s) = Raise e ->
      exists e',
        parse_contacts parser_parse text = Raise e' /\
        forall target,
          main_articles parser_parse astimezone_paris strftime_A_d_B_Y
            target text = Raise e').
Proof.
  split.
  - intros e H. apply (parse_sections_raises parser_parse _ _ _ H).
  - intros s e Hin Hs.
    destruct (parse_sections_raises_if parser_parse
                (re_split DELIMITER text) s e Hin Hs []) as [e' He'].
    exists e'. split; [exact He'|]. intros target.
    unfold main_articles. fold (parse_contacts parser_parse text) in He'.
    now rewrite He'.
Qed.

Lemma one_failing_block_fails_the_run_witness :
  exists e',
    parse_contacts SampleParser.parse
      ("Lycee A, Nantes, direct via F1ABC" ++ DELIMITER
       ++ "Lycee B, Paris direct via F1XYZ") = Raise e' /\
    forall target,
      main_articles SampleParser.parse Calendar.astimezone_paris
        sample_strftime_A_d_B_Y target
        ("Lycee A, Nantes, direct via F1ABC" ++ DELIMITER
         ++ "Lycee B, Paris direct via F1XYZ") = Raise e'.
Proof.
  apply (proj2 (one_failing_block_fails_the_run SampleParser.parse
                  Calendar.astimezone_paris sample_strftime_A_d_B_Y
                  ("Lycee A, Nantes, direct via F1ABC" ++ DELIMITER
                   ++ "Lycee B, Paris direct via F1XYZ"))
           "Lycee B, Paris direct via F1XYZ"%string IndexError).
  - vm_compute. right. now left.
  - vm_compute. reflexivity.
Defined.

(** When the run of [main] on a newsletter returns, the contacts were
    all read, the count reported is the number of articles printed, the
    articles are those of the listed contacts that pass the filter, in
    their order, and so they are at most as many as the contacts listed,
    themselves at most as many as the non-blank sections. *)
Theorem main_articles_count
  (parser_parse : string -> result datetime)
  (astimezone_paris : datetime -> datetime)
  (strftime_A_d_B_Y : datetime -> string)
  (target : option datetime) (text : string)
  (n : nat) (arts : list Article) :
  main_articles parser_parse astimezone_paris strftime_A_d_B_Y target text
  = Ok (n, arts) ->
  exists contacts,
    parse_contacts parser_parse text = Ok contacts /\
    n = List.length arts /\
    Forall2
      (fun c a =>
         generate_wordpress_article astimezone_paris strftime_A_d_B_Y c
         = Ok a)
      (filter (rendered target) contacts) arts /\
    List.length arts <= List.length contacts /\
    List.length contacts <= List.length (contact_sections text).
Proof.
  unfold main_articles, bind. intros H.
  destruct (parse_contacts parser_parse text) as [contacts|] eqn:Hp;
    [|discriminate H].
  destruct (main_loop_filter astimezone_paris strftime_A_d_B_Y target
              contacts 0 []) as [arts' [Hrun Hall]].
  rewrite Hrun in H. cbn [app Nat.add] in H. injection H as <- <-.
  exists contacts. split; [reflexivity|].
  pose proof (Forall2_length Hall) as L.
  split; [exact L|]. split; [exact Hall|]. split.
  - rewrite <- L. apply filter_length_le.
  - unfold parse_contacts in Hp.
    destruct (parse_sections_grows parser_parse _ _ _ Hp) as [added [-> G]].
    exact G.
Qed.

Lemma main_articles_count_witness :
  exists n arts,
    main_articles SampleParser.parse Calendar.astimezone_paris
      sample_strftime_A_d_B_Y None
      ("Lycee A, Nantes, direct via F1ABC" ++ LF ++ GO_LINE) = Ok (n, arts) /\
    n = List.length arts.
Proof.
  eexists. eexists. split; [vm_compute; reflexivity|].
  match goal with
  | |- ?n = List.length ?arts =>
      destruct (main_articles_count SampleParser.parse
                  Calendar.astimezone_paris sample_strftime_A_d_B_Y None
                  ("Lycee A, Nantes, direct via F1ABC" ++ LF ++ GO_LINE)
                  n arts ltac:(vm_compute; reflexivity))
        as [contacts [_ [Hn _]]];
      exact Hn
  end.
Defined.

(** ** More on school lines *)

(** Only the third comma-separated part of a school line is searched for
    " via ": on a line of four parts whose third part has none, the third
    part, trimmed, becomes the contact type and the callsign is left as
    it was, whatever the fourth part holds. *)
Theorem school_line_four_parts (parser_parse : string -> result datetime)
  (c : ArissContact) (p0 p1 p2 p3 : string) :
  trigger_school (p0 ++ "," ++ p1 ++ "," ++ p2 ++ "," ++ p3) = true ->
  contains "," p0 = false ->
  contains "," p1 = false ->
  contains "," p2 = false ->
  contains " via " (strip p2) = false ->
  parse_line parser_parse c (p0 ++ "," ++ p1 ++ "," ++ p2 ++ "," ++ p3)
  = Ok (set_contact_type (strip p2)
          (set_location (strip p1) (set_school (strip p0) c))).
Proof.
  intros Ht H0 H1 H2 Hv.
  rewrite (parse_line_fires _ c _ RSchool (trigger_school_fires _ Ht)).
  cbn [run_rule]. unfold rule_school.
  rewrite split_first; [|discriminate|cbn [init]; now rewrite append_nil_r].
  rewrite split_first; [|discriminate|cbn [init]; now rewrite append_nil_r].
  rewrite split_first; [|discriminate|cbn [init]; now rewrite append_nil_r].
  simpl_items. rewrite (split_without_sep _ _ Hv). simpl_items.
  now rewrite strip_idempotent.
Qed.

Lemma school_line_four_parts_witness :
  parse_line SampleParser.parse new_contact
    ("Lycee Jules Verne" ++ "," ++ " Nantes" ++ "," ++ " France" ++ ","
     ++ " direct via F1ABC")
  = Ok (set_contact_type (strip " France")
          (set_location (strip " Nantes")
             (set_school (strip "Lycee Jules Verne") new_contact))).
Proof.
  apply (school_line_four_parts SampleParser.parse new_contact
           "Lycee Jules Verne" " Nantes" " France" " direct via F1ABC");
    vm_compute; reflexivity.
Defined.

Lemma school_line_school (parser_parse : string -> result datetime)
  (c c' : ArissContact) (l : string) :
  trigger_school l = true ->
  parse_line parser_parse c l = Ok c' ->
  school c' = strip (hd ""%string (split "," l)).
Proof.
  intros Ht H.
  rewrite (parse_line_fires _ c l RSchool (trigger_school_fires l Ht)) in H.
  cbn [run_rule] in H. unfold rule_school, bind in H.
  destruct (split "," l) as [|p0 more]; [discriminate H|].
  cbn [getitem nth_error hd] in *.
  break_rule H; injection H as <-; reflexivity.
Qed.

(** The school of a block is the trimmed first comma-separated part of
    its last line that contains "direct via" or "telebridge via"; when
    that part is blank the contact is not listed although the block has a
    school line. *)
Theorem block_school_from_last_school_line
  (parser_parse : string -> result datetime)
  (pre post : list string) (l : string) (c : ArissContact) :
  parse_block parser_parse (pre ++ l :: post) = Ok c ->
  trigger_school l = true ->
  (forall l', In l' post -> trigger_school l' = false) ->
  school c = strip (hd ""%string (split "," l)) /\
  (strip (hd ""%string (split "," l)) = ""%string ->
   forall section rest contacts,
     section_lines section = pre ++ l :: post ->
     parse_sections parser_parse (section :: rest) contacts
     = parse_sections parser_parse rest contacts).
Proof.
  intros Hb Ht Hpost.
  assert (Hs : school c = strip (hd ""%string (split "," l))).
  { unfold parse_block, bind in Hb.
    destruct (parse_lines parser_parse new_contact (pre ++ l :: post))
      as [c1|] eqn:E; [|discriminate].
    injection Hb as <-. simpl_fields.
    assert (G : get FSchool c1
                = VText (strip (hd ""%string (split "," l)))).
    { apply (last_assignment_stays parser_parse FSchool pre post l
               new_contact c1 _ E).
      - intros c0 c0' H0. cbn [get]. f_equal.
        now apply (school_line_school parser_parse c0 c0' l).
      - intros l' Hin. apply other_rule_keeps. cbn [owner].
        apply trigger_school_rule_of, Hpost, Hin. }
    cbn [get] in G. now injection G. }
  split; [exact Hs|].
  intros Hblank section rest contacts Hlines.
  apply (parse_sections_skip parser_parse section rest contacts c).
  - unfold section_lines in Hlines. now rewrite Hlines.
  - now rewrite Hs.
Qed.

Lemma block_school_from_last_school_line_witness :
  school
    (mk_contact "Lycee B" "Paris" "F1XYZ" "" "" "" None [] "" ""
       "telebridge" "")
  = strip (hd ""%string (split "," "Lycee B, Paris, telebridge via F1XYZ")).
Proof.
  apply (proj1 (block_school_from_last_school_line SampleParser.parse
                  ["Lycee A, Nantes, direct via F1ABC"%string]
                  ["Dear all"%string]
                  "Lycee B, Paris, telebridge via F1XYZ" _
                  ltac:(vm_compute; reflexivity)
                  ltac:(vm_compute; reflexivity)
                  ltac:(intros l' [<-|[]]; vm_compute; reflexivity))).
Defined.

(** ** The cut made by the section splitter *)

Section LeftmostCut.

Lemma contains_length (needle s : string) :
  contains needle s = true -> String.length needle <= String.length s.
Proof.
  intros H. destruct (contains_decompose _ _ H) as [a [b ->]].
  rewrite !length_append. lia.
Qed.

Lemma init_shorter (sep : string) :
  sep <> ""%string -> contains sep (init sep) = false.
Proof.
  intros Hsep. destruct (init_last sep Hsep) as [z [_ L]].
  destruct (contains sep (init sep)) eqn:E; [|reflexivity].
  apply contains_length in E. lia.
Qed.

(** A text that contains the separator has a first occurrence of it: a
    place before which, even with all but the last character of the
    separator added, the separator does not occur. *)
Lemma contains_leftmost (sep s : string) :
  sep <> ""%string ->
  contains sep s = true ->
  exists a b, s = (a ++ sep ++ b)%string
              /\ contains sep (a ++ init sep) = false.
Proof.
  intros Hsep. induction s as [|c s IH]; intros H.
  - destruct sep; [congruence | discriminate H].
  - rewrite contains_cons in H.
    destruct (startswith sep (String c s)) eqn:Hp.
    + exists ""%string, (drop (String.length sep) (String c s)). split.
      * cbn [append]. now apply startswith_drop.
      * cbn [append]. now apply init_shorter.
    + cbn [orb] in H. destruct (IH H) as [a [b [E Ha]]].
      exists (String c a), b. split; [cbn [append]; now rewrite E|].
      cbn [append]. rewrite contains_cons, Ha, orb_false_r.
      destruct (startswith sep (String c (a ++ init sep))) eqn:Hs;
        [|reflexivity].
      destruct (init_last sep Hsep) as [z [Ez _]].
      apply (startswith_append_r _ _ (String z "" ++ b)) in Hs.
      assert (Es : (String c (a ++ init sep) ++ String z "" ++ b)%string
                   = String c s).
      { rewrite E. cbn [append]. f_equal. rewrite append_assoc. f_equal.
        transitivity ((init sep ++ String z "") ++ b)%string;
          [now rewrite append_assoc | now rewrite <- Ez]. }
      rewrite Es in Hs. congruence.
Qed.

(** The cut at the leftmost non-overlapping occurrences is the only
    function of the text that leaves a text without the separator whole
    and, at a first occurrence, gives the text before it and goes on with
    the text after it. *)
Lemma split_unique (sep : string) (f : string -> list string) :
  sep <> ""%string ->
  (forall t, contains sep t = false -> f t = [t]) ->
  (forall a b, contains sep (a ++ init sep) = false ->
               f (a ++ sep ++ b)%string = a :: f b) ->
  forall t, f t = split sep t.
Proof.
  intros Hsep Hnone Hfirst.
  assert (G : forall n t, String.length t <= n -> f t = split sep t).
  { induction n as [|n IH]; intros t L.
    - destruct t; [|cbn in L; lia].
      rewrite Hnone, split_without_sep; try reflexivity;
        destruct sep; congruence || reflexivity.
    - destruct (contains sep t) eqn:C.
      + destruct (contains_leftmost sep t Hsep C) as [a [b [-> Ha]]].
        rewrite (Hfirst a b Ha), (split_first sep a b Hsep Ha).
        f_equal. apply IH. rewrite !length_append in L.
        destruct sep; [congruence|]. cbn [String.length] in L. lia.
      + now rewrite (Hnone t C), (split_without_sep _ _ C). }
  intros t. apply (G (String.length t)). lia.
Qed.

End LeftmostCut.

(** C3 (amended): the splitter cuts the text at the leftmost
    non-overlapping occurrences of seventy [=] characters, wherever they
    stand.  A text without that run is a single piece; a text that has it
    has a first occurrence, the first piece is the text before that
    occurrence and the cut goes on with the text after it; no other way
    of cutting has these two properties.  So seventy-one [=] give an
    empty piece and a piece ["="], and one hundred and forty give three
    empty pieces.  The pieces joined by the run give the text back and
    none contains it.  The sections are the pieces that are not blank
    once trimmed, in the order of the text, and they are what
    [parse_contacts] reads. *)
Theorem C3_sections_between_seventy_equals
  (parser_parse : string -> result datetime) (text : string) :
  (contains DELIMITER text = false -> re_split DELIMITER text = [text]) /\
  (contains DELIMITER text = true ->
   exists a b, text = (a ++ DELIMITER ++ b)%string
               /\ contains DELIMITER (a ++ init DELIMITER) = false) /\
  (forall a b,
      text = (a ++ DELIMITER ++ b)%string ->
      contains DELIMITER (a ++ init DELIMITER) = false ->
      re_split DELIMITER text = a :: re_split DELIMITER b) /\
  (forall f : string -> list string,
      (forall t, contains DELIMITER t = false -> f t = [t]) ->
      (forall a b, contains DELIMITER (a ++ init DELIMITER) = false ->
                   f (a ++ DELIMITER ++ b)%string = a :: f b) ->
      f text = re_split DELIMITER text) /\
  re_split DELIMITER (replicate 71 "=") = [""; "="]%string /\
  re_split DELIMITER (replicate 140 "=") = [""; ""; ""]%string /\
  join DELIMITER (re_split DELIMITER text) = text /\
  (forall piece, In piece (re_split DELIMITER text) ->
                 contains DELIMITER piece = false) /\
  contact_sections text
  = filter (fun piece => negb (String.eqb (strip piece) ""))
      (re_split DELIMITER text) /\
  (forall section, In section (contact_sections text) <->
                   In section (re_split DELIMITER text)
                   /\ strip section <> ""%string) /\
  parse_contacts parser_parse text
  = parse_sections parser_parse (contact_sections text) [].
Proof.
  unfold re_split.
  split; [apply split_without_sep|].
  split; [apply contains_leftmost, DELIMITER_nonempty|].
  split; [intros a b -> Ha; apply split_first;
          [apply DELIMITER_nonempty | exact Ha]|].
  split; [intros f Hnone Hfirst;
          apply (split_unique DELIMITER f DELIMITER_nonempty Hnone Hfirst)|].
  split; [vm_compute; reflexivity|].
  split; [vm_compute; reflexivity|].
  split; [apply join_split, DELIMITER_nonempty|].
  split; [intros piece; apply split_go_no_sep, DELIMITER_nonempty|].
  split.
  { unfold contact_sections, re_split. apply filter_ext.
    intros piece. unfold kept. now destruct (strip piece). }
  split.
  { intros section. unfold contact_sections, re_split.
    rewrite filter_In, kept_iff. reflexivity. }
  unfold parse_contacts, contact_sections. apply parse_sections_kept.
Qed.

Lemma C3_sections_between_seventy_equals_witness :
  re_split DELIMITER ("intro " ++ DELIMITER ++ "=")
  = "intro "%string :: re_split DELIMITER "=".
Proof.
  apply (proj1 (proj2 (proj2 (C3_sections_between_seventy_equals
           SampleParser.parse ("intro " ++ DELIMITER ++ "="))))
           "intro "%string "="%string).
  - reflexivity.
  - vm_compute. reflexivity.
Defined.
